(** * Pulse survey report: a shallow embedding of [pulse.py]

    The script is one linear pipeline: load a CSV export, infer the role of
    each column, aggregate the question scores, build the charts, extract the
    free-text comments and interpolate everything into an HTML page.

    Modelling conventions.
    - A float64 cell is an exact rational, [None] standing for NaN
      ([cell := option Q]); rounding error of binary floating point and the
      infinities are outside the model.
    - A Python [str] is a [string] of bytes (UTF-8 for non-ASCII text);
      [lower] and [strip] act on the ASCII range.
    - pandas and the Python standard library are not part of the repository:
      the float parser behind [pd.to_numeric], [pd.to_datetime] and the
      value of a timestamp, [strftime], [str] and the [.2f] format of a
      float, and [textwrap.wrap] are section variables. *)

From Stdlib Require Import QArith ZArith Qround List String Ascii Bool Arith Lia
  Lqa Permutation Sorted.
Import ListNotations.

Local Open Scope list_scope.

Infix "+++" := String.append (right associativity, at level 60).

(** ** Configuration constants *)

Module Config.
Definition BRAND_NAME : string := "Pulse XCap/MXI2".
Definition ACCENT : string := "#64748b".
Definition ACCENT_DARK : string := "#c81f1f".
Definition GOOD : string := "#1a7f37".
Definition NEUTRAL : string := "#8a8f98".
Definition BAD : string := "#d1242f".
Definition MAX_TITLE_CHARS : nat := 52.
Definition CHART_HEIGHT : nat := 320.
End Config.

(** ** Python string helpers used by the script *)

Module PyStr.

Definition dq : string := String (ascii_of_nat 34) EmptyString.
Definition nl : string := String (ascii_of_nat 10) EmptyString.

(** [str.lower] on the ASCII range. *)
Definition lower_ascii (c : ascii) : ascii :=
  let n := nat_of_ascii c in
  if (65 <=? n)%nat && (n <=? 90)%nat then ascii_of_nat (n + 32) else c.

Fixpoint lower (s : string) : string :=
  match s with
  | EmptyString => EmptyString
  | String c r => String (lower_ascii c) (lower r)
  end.

(** [s.startswith(p)] *)
Definition startswith (s p : string) : bool := String.prefix p s.

(** [p in s] *)
Fixpoint contains (p s : string) : bool :=
  String.prefix p s ||
  match s with
  | EmptyString => false
  | String _ r => contains p r
  end.

(** [str.isspace] on one ASCII character: tab, line feed, vertical tab,
    form feed, carriage return, the four separators 28..31 and space. *)
Definition is_space (c : ascii) : bool :=
  let n := nat_of_ascii c in
  ((9 <=? n)%nat && (n <=? 13)%nat) || ((28 <=? n)%nat && (n <=? 32)%nat).

Fixpoint lstrip (s : string) : string :=
  match s with
  | EmptyString => EmptyString
  | String c r => if is_space c then lstrip r else s
  end.

Fixpoint rstrip (s : string) : string :=
  match s with
  | EmptyString => EmptyString
  | String c r =>
      match rstrip r with
      | EmptyString => if is_space c then EmptyString else String c EmptyString
      | r' => String c r'
      end
  end.

(** [str.strip()] *)
Definition strip (s : string) : string := rstrip (lstrip s).

(** [sep.join(l)] *)
Fixpoint join (sep : string) (l : list string) : string :=
  match l with
  | [] => EmptyString
  | [x] => x
  | x :: r => x +++ sep +++ join sep r
  end.

(** Every character of the string is white space (true of [""] as well). *)
Fixpoint all_space (s : string) : bool :=
  match s with
  | EmptyString => true
  | String c r => is_space c && all_space r
  end.

Definition is_empty (s : string) : bool :=
  match s with EmptyString => true | _ => false end.

(** Decimal rendering of a natural number, [str(n)]. *)
Fixpoint digits (fuel n : nat) (acc : string) : string :=
  match fuel with
  | O => acc
  | S f =>
      let d := String (ascii_of_nat (48 + n mod 10)) acc in
      if (n <? 10)%nat then d else digits f (n / 10) d
  end.

Definition str_of_nat (n : nat) : string := digits (S n) n EmptyString.

End PyStr.

(** ** Cells *)

(** A float64 cell of a numeric column; [None] is NaN. *)
Definition cell := option Q.

(** A cell as [pd.read_csv] delivers it: a number, a piece of text or a
    missing value. *)
Inductive raw : Type :=
| RNum (q : Q)
| RStr (s : string)
| RNaN.

(** [pd.isna] *)
Definition isna (c : cell) : bool :=
  match c with None => true | Some _ => false end.

Definition notna (c : cell) : bool := negb (isna c).

(** ** Helpers *)

Module Helpers.
Import Config.

(** [score_color]: the NaN test comes first, then the two thresholds. *)
Definition score_color (score : cell) : string :=
  match score with
  | None => NEUTRAL
  | Some s =>
      if Qle_bool 4 s then GOOD
      else if Qle_bool 3 s then NEUTRAL
      else BAD
  end.

End Helpers.

(** ** The frame read from the CSV file *)

(** [pd.read_csv] yields named columns, in file order. *)
Definition DataFrame := list (string * list raw).

Definition columns (df : DataFrame) : list string := map fst df.

(** [df[c]]: the column called [c]. *)
Definition get_col (df : DataFrame) (c : string) : list raw :=
  match find (fun p => String.eqb (fst p) c) df with
  | Some p => snd p
  | None => []
  end.

(** [len(df)] *)
Definition len (df : DataFrame) : nat :=
  match df with
  | [] => 0%nat
  | (_, v) :: _ => List.length v
  end.

(** The numeric part of the frame, [df[question_cols]] once coerced. *)
Definition Table := list (string * list cell).

(** ** Loader (lines 46-59) *)

Section Loader.

(** The float parser of [pd.to_numeric] and [pd.to_datetime] on one cell
    (both with [errors="coerce"]). *)
Variable parse_float : string -> option Q.
Variable to_datetime : raw -> raw.

(** [pd.to_numeric(..., errors="coerce")] on one cell. *)
Definition to_numeric (r : raw) : cell :=
  match r with
  | RNum q => Some q
  | RStr s => parse_float s
  | RNaN => None
  end.

Definition is_timestamp_name (c : string) : bool :=
  PyStr.startswith (PyStr.lower c) "timestamp".

Definition is_comment_name (c : string) : bool :=
  PyStr.contains "optional" (PyStr.lower c)
  || PyStr.contains "comment" (PyStr.lower c).

(** [next((c for c in l if p(c)), default)] *)
Definition next_or {A : Type} (p : A -> bool) (l : list A) (default : A) : A :=
  match find p l with
  | Some x => x
  | None => default
  end.

(** Line 48.  The default [df.columns[0]] is evaluated before the search,
    so a frame without columns raises ([None]). *)
Definition timestamp_col (df : DataFrame) : option string :=
  match columns df with
  | [] => None
  | c0 :: _ => Some (next_or is_timestamp_name (columns df) c0)
  end.

(** Line 51. *)
Definition comment_col (df : DataFrame) : option string :=
  find is_comment_name (columns df).

(** [c in {timestamp_col, comment_col}] *)
Definition in_roles (ts : string) (cm : option string) (c : string) : bool :=
  String.eqb c ts
  || match cm with Some m => String.eqb c m | None => false end.

(** Line 53. *)
Definition question_cols (df : DataFrame) (ts : string) (cm : option string)
  : list string :=
  filter (fun c => negb (in_roles ts cm c)) (columns df).

(** State of the script after the LOAD block. *)
Record Loaded := {
  l_timestamp_col : string;
  l_comment_col : option string;
  l_question_cols : list string;
  l_questions : Table;                   (* df[question_cols], coerced *)
  l_comment_cells : option (list raw);   (* df[comment_col] *)
  l_n : nat
}.

(** [df[c]] after line 49 has overwritten the timestamp column. *)
Definition col_after_datetime (df : DataFrame) (ts c : string) : list raw :=
  if String.eqb c ts then map to_datetime (get_col df c) else get_col df c.

Definition load (df : DataFrame) : option Loaded :=
  match timestamp_col df with
  | None => None
  | Some ts =>
      let cm := comment_col df in
      let qs := question_cols df ts cm in
      Some {| l_timestamp_col := ts;
              l_comment_col := cm;
              l_question_cols := qs;
              l_questions :=
                map (fun c => (c, map to_numeric (get_col df c))) qs;
              l_comment_cells :=
                option_map (col_after_datetime df ts) cm;
              l_n := len df |}
  end.

End Loader.

(** ** Vocabulary for the column roles *)






(** ** [value_counts] and [reindex] *)

Section ValueCounts.

Context {K : Type} (eqb : K -> K -> bool).

(** One more occurrence of [k] in the running tally. *)
Fixpoint bump (k : K) (acc : list (K * nat)) : list (K * nat) :=
  match acc with
  | [] => [(k, 1%nat)]
  | (k', c) :: rest =>
      if eqb k' k then (k', S c) :: rest else (k', c) :: bump k rest
  end.

(** [Series.value_counts]: each distinct value with its number of
    occurrences.  The result is only ever read through [reindex], so the
    order of its entries is the order of first occurrence. *)
Definition value_counts (l : list K) : list (K * nat) :=
  fold_left (fun acc k => bump k acc) l [].

Fixpoint lookup (k : K) (s : list (K * nat)) : option nat :=
  match s with
  | [] => None
  | (k', c) :: rest => if eqb k' k then Some c else lookup k rest
  end.

(** [s.reindex(labels, fill_value=fill)] *)
Definition reindex (labels : list K) (fill : nat) (s : list (K * nat))
  : list (K * nat) :=
  map (fun k => (k, match lookup k s with Some c => c | None => fill end))
      labels.

(** Number of entries of [l] equal to [k]. *)
Definition occurrences (k : K) (l : list K) : nat :=
  List.length (filter (eqb k) l).

(** The count read at [k], 0 when [k] is absent; one entry [x] seen from
    the label [k]. *)
Definition tally (k : K) (s : list (K * nat)) : nat :=
  match lookup k s with Some c => c | None => 0%nat end.

Definition hit (k x : K) : nat := if eqb k x then 1%nat else 0%nat.

(** No two labels are equal. *)
Fixpoint distinct (labels : list K) : bool :=
  match labels with
  | [] => true
  | k :: r => negb (existsb (eqb k) r) && distinct r
  end.

Definition labelled (labels : list K) (x : K) : bool :=
  existsb (fun k => eqb k x) labels.

End ValueCounts.

(** ** Stable sorting, as [sort_values] uses it *)

Section Sort.

Context {A : Type} (key : A -> Q).

Fixpoint insert (x : A) (l : list A) : list A :=
  match l with
  | [] => [x]
  | y :: r => if Qle_bool (key x) (key y) then x :: l else y :: insert x r
  end.

(** Ascending insertion sort; equal keys keep their input order. *)
Fixpoint argsort (l : list A) : list A :=
  match l with
  | [] => []
  | x :: r => insert x (argsort r)
  end.


End Sort.

(** ** Aggregator (lines 64-90) *)

Module Aggregator.

Definition olist (c : cell) : list Q :=
  match c with Some q => [q] | None => [] end.

(** [Series.dropna()] on a numeric column. *)
Definition dropna (col : list cell) : list Q := flat_map olist col.

Definition nrows (t : Table) : nat :=
  match t with
  | [] => 0%nat
  | (_, v) :: _ => List.length v
  end.

(** Row [i] of the table, one cell per question column. *)
Definition row (t : Table) (i : nat) : list cell :=
  map (fun c => nth i (snd c) None) t.

(** Line 65: [df[question_cols].stack(dropna=True)], the non-missing cells
    row after row, or an empty series when there is no question column. *)
Definition stacked (t : Table) : list Q :=
  match t with
  | [] => []
  | _ => flat_map (fun i => dropna (row t i)) (seq 0 (nrows t))
  end.

Definition Qsum (l : list Q) : Q := fold_right Qplus 0 l.

(** [Series.mean()]: missing cells are skipped by the caller's [dropna];
    the mean of nothing is NaN. *)
Definition mean (l : list Q) : cell :=
  match l with
  | [] => None
  | _ => Some (Qsum l / inject_Z (Z.of_nat (List.length l)))
  end.

(** Line 66. *)
Definition overall_mean (t : Table) : cell :=
  match List.length (stacked t) with
  | O => None
  | _ => mean (stacked t)
  end.

Definition Qmin2 (a b : Q) : Q := if Qle_bool a b then a else b.
Definition Qmax2 (a b : Q) : Q := if Qle_bool a b then b else a.

Definition minimum (l : list Q) : cell :=
  match l with
  | [] => None
  | x :: r => Some (fold_left Qmin2 r x)
  end.

Definition maximum (l : list Q) : cell :=
  match l with
  | [] => None
  | x :: r => Some (fold_left Qmax2 r x)
  end.

Definition median (l : list Q) : cell :=
  let s := argsort (fun q => q) l in
  let n := List.length s in
  if Nat.odd n then nth_error s (n / 2)
  else
    match nth_error s (n / 2 - 1), nth_error s (n / 2) with
    | Some a, Some b => Some ((a + b) / 2)
    | _, _ => None
    end.

Record SummaryRow := {
  Question : string;
  Mean : cell;
  Median : cell;
  Min : cell;
  Max : cell
}.

(** Lines 68-73, before sorting: one row per question column, in column
    order. *)
Definition summary_row (c : string * list cell) : SummaryRow :=
  {| Question := fst c;
     Mean := mean (dropna (snd c));
     Median := median (dropna (snd c));
     Min := minimum (dropna (snd c));
     Max := maximum (dropna (snd c)) |}.

Definition mean_key (r : SummaryRow) : Q :=
  match Mean r with Some q => q | None => 0 end.

(** [sort_values("Mean", ascending=False)], following pandas' [nargsort]:
    the rows with a mean are reversed, sorted ascending and reversed again;
    the rows whose mean is NaN come last, in their input order. *)
Definition sort_values_mean_desc (rows : list SummaryRow) : list SummaryRow :=
  let non_nans := filter (fun r => notna (Mean r)) rows in
  let nans := filter (fun r => isna (Mean r)) rows in
  rev (argsort mean_key (rev non_nans)) ++ nans.

Definition summary (t : Table) : list SummaryRow :=
  sort_values_mean_desc (map summary_row t).

(** [s.iloc[0]] and [s.iloc[-1]] of a frame that may be empty. *)
Definition iloc_first {A : Type} (l : list A) : option A := hd_error l.

Definition iloc_last {A : Type} (l : list A) : option A :=
  match l with
  | [] => None
  | x :: r => Some (last r x)
  end.

(** Lines 76-79. *)
Definition best_q (t : Table) : string :=
  match iloc_first (summary t) with Some r => Question r | None => "-" end.

Definition best_mean (t : Table) : cell :=
  match iloc_first (summary t) with Some r => Mean r | None => None end.

Definition worst_q (t : Table) : string :=
  match iloc_last (summary t) with Some r => Question r | None => "-" end.

Definition worst_mean (t : Table) : cell :=
  match iloc_last (summary t) with Some r => Mean r | None => None end.

(** [Series.round()] rounds halves to the even neighbour; [astype(int)]
    then only changes the type. *)
Definition round_half_even (q : Q) : Z :=
  let f := Qfloor q in
  match Qcompare (q - inject_Z f)%Q (1 # 2)%Q with
  | Lt => f
  | Gt => (f + 1)%Z
  | Eq => if Z.even f then f else (f + 1)%Z
  end.

Definition score_labels : list Z := [1; 2; 3; 4; 5]%Z.

(** Lines 82-87. *)
Definition dist_counts (t : Table) : list (Z * nat) :=
  reindex Z.eqb score_labels 0
    (value_counts Z.eqb (map round_half_even (stacked t))).

(** Line 89. *)
Definition total_answers (t : Table) : nat :=
  list_sum (map snd (dist_counts t)).

(** Float division of a count by a count: a zero divisor gives no finite
    number (NaN for 0/0). *)
Definition fdiv (a b : nat) : cell :=
  match b with
  | O => None
  | _ => Some (inject_Z (Z.of_nat a) / inject_Z (Z.of_nat b))
  end.

(** Line 90: the [Percent] column of [dist_df]. *)
Definition percent (t : Table) : list cell :=
  match total_answers t with
  | O => map (fun _ => Some 0) (dist_counts t)
  | total =>
      map (fun sc => option_map (fun x => x * 100) (fdiv (snd sc) total))
          (dist_counts t)
  end.

(** Line 598: the value interpolated as "Total answers". *)
Definition total_answers_kpi (t : Table) : Q :=
  inject_Z (Z.of_nat (total_answers t)) / 5.

(** Number of non-missing cells of a column, and of the whole table. *)
Definition count_notna (col : list cell) : nat :=
  List.length (filter notna col).

Definition pooled_notna (t : Table) : nat :=
  list_sum (map (fun c => count_notna (snd c)) t).

(** All non-missing values of the table, column after column. *)
Definition pooled (t : Table) : list Q :=
  flat_map (fun c => dropna (snd c)) t.

(** Every column has the same number of cells, as in any data frame. *)
Definition rectangular (t : Table) : Prop :=
  Forall (fun c => List.length (snd c) = nrows t) t.

(** A value whose rounding is one of the scores 1..5. *)
Definition rounds_to_score (q : Q) : bool :=
  labelled Z.eqb score_labels (round_half_even q).


(** [df.iloc[p]] on one column and on the table: the rows in the order
    [p]. *)
Definition take_rows (p : list nat) (col : list cell) : list cell :=
  map (fun i => nth i col None) p.

Definition reorder_rows (p : list nat) (t : Table) : Table :=
  map (fun c => (fst c, take_rows p (snd c))) t.

(** The cell holds a number equal to [q]. *)
Definition is_mean (c : cell) (q : Q) : Prop :=
  match c with Some m => m == q | None => False end.






End Aggregator.

(** ** Chart builder (lines 115-199) *)

Module Charts.
Import Aggregator.

(** Equality of two float64 index keys of [value_counts(dropna=False)]:
    NaN is one key of its own. *)
Definition cell_eqb (a b : cell) : bool :=
  match a, b with
  | Some x, Some y => Qeq_bool x y
  | None, None => true
  | _, _ => false
  end.

Definition label_of (z : Z) : cell := Some (inject_Z z).

(** The frame [counts] of [dist_chart]: the column's values are counted as
    they are (NaN included, nothing rounded) and the tally is then read at
    the labels 1..5. *)
Definition chart_counts (col : list cell) : list (cell * nat) :=
  reindex cell_eqb (map label_of score_labels) 0
    (value_counts cell_eqb col).

(** A cell holding exactly one of the scores 1..5. *)
Definition exact_score (c : cell) : bool :=
  labelled cell_eqb (map label_of score_labels) c.

Record BarFig := {
  bar_x : list cell;
  bar_y : list nat;
  bar_text : list nat;
  bar_title : string;
  bar_height : nat;
  bar_color : string
}.

Record PieFig := {
  pie_names : list string;
  pie_values : list nat;
  pie_title : string;
  pie_colors : list string;
  pie_textinfo : string
}.

Section WithTextwrap.

(** [textwrap.wrap(s, width, break_long_words=False,
    break_on_hyphens=False)] *)
Variable textwrap_wrap : string -> nat -> list string.

Definition wrap_title (s : string) (width : nat) : string :=
  PyStr.join "<br>" (textwrap_wrap (PyStr.strip s) width).

Definition dist_chart (c : string * list cell) : BarFig :=
  let counts := chart_counts (snd c) in
  {| bar_x := map fst counts;
     bar_y := map snd counts;
     bar_text := map snd counts;
     bar_title := wrap_title (fst c) Config.MAX_TITLE_CHARS;
     bar_height := Config.CHART_HEIGHT;
     bar_color := Config.ACCENT |}.

End WithTextwrap.

Definition no_data_pie : PieFig :=
  {| pie_names := ["No data"%string];
     pie_values := [1%nat];
     pie_title := "Overall distribution (1–5)";
     pie_colors := ["#e2e8f0"%string];
     pie_textinfo := "label" |}.

Definition pie_chart (t : Table) : PieFig :=
  match total_answers t with
  | O => no_data_pie
  | _ =>
      {| pie_names :=
           map (fun sc => PyStr.str_of_nat (Z.to_nat (fst sc))) (dist_counts t);
         pie_values := map snd (dist_counts t);
         pie_title := "Overall distribution of all answers (1–5)";
         pie_colors :=
           ["#d1d5db"; "#cbd5e1"; "#94a3b8"; "#64748b"; "#475569"]%string;
         pie_textinfo := "percent+label" |}
  end.

End Charts.

(** ** Comment extractor (lines 202-219) *)

Section Comments.

(** [str(x)] of a float. *)
Variable float_str : Q -> string.

Definition raw_notna (r : raw) : bool :=
  match r with RNaN => false | _ => true end.

Definition astype_str (r : raw) : string :=
  match r with
  | RNum q => float_str q
  | RStr s => s
  | RNaN => "nan"
  end.

(** Lines 205-206: drop the missing cells, turn the rest into text, trim,
    then drop what is empty. *)
Definition comments (col : list raw) : list string :=
  filter (fun s => negb (PyStr.is_empty s))
    (map (fun r => PyStr.strip (astype_str r)) (filter raw_notna col)).

(** One element of the list comprehension of line 208. *)
Definition comment_item (c : string) : string :=
  "<div class='comment'>“" +++ c +++ "”</div>".

Definition items (cs : list string) : string :=
  PyStr.join PyStr.nl (map comment_item cs).

(** The f-string of lines 209-219: the text up to [{items}], with the
    number of comments interpolated, and the text after it. *)
Definition section_head (n : nat) : string :=
  let dq := PyStr.dq in
  let nl := PyStr.nl in
  nl +++ "        <section class=" +++ dq +++ "panel span-12" +++ dq +++ ">"
  +++ nl +++ "          <div class=" +++ dq +++ "panel-header" +++ dq +++ ">"
  +++ nl +++ "            <div class=" +++ dq +++ "panel-title" +++ dq
  +++ ">Open-ended comments</div>"
  +++ nl +++ "            <div class=" +++ dq +++ "panel-subtitle" +++ dq
  +++ ">" +++ PyStr.str_of_nat n +++ " comment(s)</div>"
  +++ nl +++ "          </div>"
  +++ nl +++ "          <div class=" +++ dq +++ "panel-body comments-grid"
  +++ dq +++ ">"
  +++ nl +++ "            ".

Definition section_tail : string :=
  let nl := PyStr.nl in
  nl +++ "          </div>"
  +++ nl +++ "        </section>"
  +++ nl +++ "        ".

Definition comments_section (cs : list string) : string :=
  section_head (List.length cs) +++ items cs +++ section_tail.

(** Lines 203-219.  [if comment_col:] is false for [None] and for an empty
    name. *)
Definition comments_html (L : Loaded) : string :=
  match l_comment_col L, l_comment_cells L with
  | Some name, Some col =>
      if PyStr.is_empty name then EmptyString
      else
        match comments col with
        | [] => EmptyString
        | cs => comments_section cs
        end
  | _, _ => EmptyString
  end.

(** The non-missing entries of the comment column, as text, in row
    order. *)
Definition entries (col : list raw) : list string :=
  map astype_str (filter raw_notna col).

(** What the report is to show: the entries that are not blank, trimmed,
    still in row order. *)
Definition displayed (col : list raw) : list string :=
  map PyStr.strip (filter (fun s => negb (PyStr.all_space s)) (entries col)).

Definition shown (L : Loaded) : list string :=
  match l_comment_cells L with
  | Some col => displayed col
  | None => []
  end.

End Comments.

(** ** Values the template interpolates (lines 259-262, 580-599, 636) *)

Module Report.
Import Aggregator Helpers.

Record Kpis := {
  overall_color : string;
  overall_value : cell;
  best_color : string;
  best_value : cell;
  best_hint : string;
  worst_color : string;
  worst_value : cell;
  worst_hint : string;
  total_answers_value : Q
}.

Definition kpis (t : Table) : Kpis :=
  {| overall_color := score_color (overall_mean t);
     overall_value := overall_mean t;
     best_color := score_color (best_mean t);
     best_value := best_mean t;
     best_hint := best_q t;
     worst_color := score_color (worst_mean t);
     worst_value := worst_mean t;
     worst_hint := worst_q t;
     total_answers_value := total_answers_kpi t |}.

End Report.

(** ** Further vocabulary *)

(** How good a status colour is: attention 0, neutral 1, good 2. *)
Definition grade (colour : string) : nat :=
  if String.eqb colour Config.GOOD then 2%nat
  else if String.eqb colour Config.NEUTRAL then 1%nat
  else 0%nat.

(** Number of entries of a list that pass a test. *)
Definition count_if {A : Type} (p : A -> bool) (l : list A) : nat :=
  List.length (filter p l).

(** The cell holds exactly the integer [z]. *)
Definition holds (z : Z) (c : cell) : bool :=
  match c with Some q => Qeq_bool q (inject_Z z) | None => false end.

(** The cell is missing or holds an integer. *)
Definition integral (c : cell) : bool :=
  match c with
  | Some q => Qeq_bool q (inject_Z (Qfloor q))
  | None => true
  end.

(** A natural number as a rational. *)
Definition nQ (n : nat) : Q := inject_Z (Z.of_nat n).

(** The value lies strictly between 0.5 and 5.5. *)
Definition in_score_range (q : Q) : bool :=
  negb (Qle_bool q (1 # 2)) && negb (Qle_bool (11 # 2) q).

(** The cell holds an answer that the pooled histogram counts. *)
Definition answered (c : cell) : bool :=
  match c with
  | Some q => Aggregator.rounds_to_score q
  | None => false
  end.

(** ** Date range (lines 57-62 and 573) *)

Section DateRange.

(** [pd.to_datetime] on one cell, as in the loader, and the value of a
    converted cell: nanoseconds since the epoch, [None] for NaT. *)
Variable to_datetime : raw -> raw.
Variable timestamp_value : raw -> option Z.

(** [strftime('%Y-%m-%d')] *)
Variable strftime_ymd : Z -> string.

(** The valid timestamps of the converted column, in row order. *)
Definition timestamps (col : list raw) : list Z :=
  flat_map (fun r => match timestamp_value (to_datetime r) with
                     | Some z => [z]
                     | None => []
                     end) col.

(** [Series.min()] and [Series.max()] skip NaT and are NaT on nothing. *)
Definition date_min (col : list raw) : option Z :=
  match timestamps col with
  | [] => None
  | x :: r => Some (fold_left Z.min r x)
  end.

Definition date_max (col : list raw) : option Z :=
  match timestamps col with
  | [] => None
  | x :: r => Some (fold_left Z.max r x)
  end.

(** Lines 60-62. *)
Definition date_range_str (col : list raw) : string :=
  match date_min col, date_max col with
  | Some a, Some b => strftime_ymd a +++ " → " +++ strftime_ymd b
  | _, _ => EmptyString
  end.

(** Line 573: [date_range_str or "-"]. *)
Definition date_range_shown (col : list raw) : string :=
  if PyStr.is_empty (date_range_str col) then "-"%string
  else date_range_str col.

End DateRange.

(** ** Summary table (lines 221-257) *)

Section SummaryTable.

(** [f"{x:.2f}"] of a finite float. *)
Variable format_2f : Q -> string.

(** [fmt]: every value passed is a float, so [float(x)] never fails; NaN
    prints as "nan". *)
Definition fmt (x : cell) : string :=
  match x with
  | Some q => format_2f q
  | None => "nan"
  end.

Definition td (s : string) : string :=
  PyStr.nl +++ "        <td>" +++ s +++ "</td>".

(** One element of [rows] (lines 230-238). *)
Definition row_html (r : Aggregator.SummaryRow) : string :=
  PyStr.nl +++ "      <tr>"
  +++ PyStr.nl +++ "        <td class=" +++ PyStr.dq +++ "q" +++ PyStr.dq +++ ">"
  +++ Aggregator.Question r +++ "</td>"
  +++ td (fmt (Aggregator.Mean r))
  +++ td (fmt (Aggregator.Median r))
  +++ td (fmt (Aggregator.Min r))
  +++ td (fmt (Aggregator.Max r))
  +++ PyStr.nl +++ "      </tr>"
  +++ PyStr.nl +++ "    ".

Definition table_head : string :=
  let dq := PyStr.dq in
  let nl := PyStr.nl in
  nl +++ "<div class=" +++ dq +++ "table-wrap" +++ dq +++ ">"
  +++ nl +++ "  <table class=" +++ dq +++ "table" +++ dq +++ ">"
  +++ nl +++ "    <thead>"
  +++ nl +++ "      <tr>"
  +++ nl +++ "        <th>Question</th>"
  +++ nl +++ "        <th>Mean</th>"
  +++ nl +++ "        <th>Median</th>"
  +++ nl +++ "        <th>Min</th>"
  +++ nl +++ "        <th>Max</th>"
  +++ nl +++ "      </tr>"
  +++ nl +++ "    </thead>"
  +++ nl +++ "    <tbody>"
  +++ nl +++ "      ".

Definition table_tail : string :=
  let nl := PyStr.nl in
  nl +++ "    </tbody>"
  +++ nl +++ "  </table>"
  +++ nl +++ "</div>"
  +++ nl.

(** Lines 228-257: one row per summary row, in summary order. *)
Definition rows (t : Table) : list string :=
  map row_html (Aggregator.summary t).

Definition summary_table_html (t : Table) : string :=
  table_head +++ PyStr.join EmptyString (rows t) +++ table_tail.

End SummaryTable.

(** ** Sample data *)

Definition sample_table : Table :=
  [("Q1"%string, [Some 1; Some 4; None]);
   ("Q2"%string, [Some 5; None; Some (9 # 2)])].

Definition two_questions : Table :=
  [("Q1"%string, [Some 1; Some 1; Some 1]);
   ("Q2"%string, [Some 5; Some 5; Some 5])].

Definition five_questions : Table :=
  [("Q1"%string, [Some 1; Some 2]); ("Q2"%string, [Some 3; Some 3]);
   ("Q3"%string, [Some 5; Some 4]); ("Q4"%string, [Some 2; Some 2]);
   ("Q5"%string, [Some 4; Some (9 # 2)])].

Definition sample_frame : DataFrame :=
  [("When"%string, [RStr "2025-01-03"; RStr "2025-01-04"]);
   ("TimeStamp (UTC)"%string, [RStr "10:00"; RStr "11:00"]);
   ("Q1"%string, [RNum 4; RStr "n/a"]);
   ("Any Comments?"%string, [RStr "  fine <b>so far</b> "; RNaN]);
   ("Optional remarks"%string, [RStr "x"; RStr "   "])].

Definition sample_loaded : Loaded :=
  {| l_timestamp_col := "TimeStamp (UTC)";
     l_comment_col := Some "Any Comments?"%string;
     l_question_cols := ["When"; "Q1"; "Optional remarks"]%string;
     l_questions := [("When"%string, [None; None]);
                     ("Q1"%string, [Some 4; None]);
                     ("Optional remarks"%string, [None; None])];
     l_comment_cells := Some [RStr "  fine <b>so far</b> "; RNaN];
     l_n := 2 |}.

(** * Properties *)

(** ** Tallies *)

Section ValueCountsFacts.

Context {K : Type} (eqb : K -> K -> bool).

Hypothesis eqb_sym : forall a b, eqb a b = eqb b a.
Hypothesis eqb_compat : forall a b c, eqb a b = true -> eqb a c = eqb b c.

Lemma tally_bump k x s :
  tally eqb k (bump eqb x s) = (hit eqb k x + tally eqb k s)%nat.
Proof.
  unfold tally, hit. induction s as [|[k' c] rest IH]; simpl.
  - rewrite (eqb_sym x k). destruct (eqb k x); reflexivity.
  - destruct (eqb k' x) eqn:Hx; simpl.
    + rewrite (eqb_compat _ _ k Hx), (eqb_sym x k).
      destruct (eqb k x); reflexivity.
    + destruct (eqb k' k) eqn:Hk; [|exact IH].
      assert (Hkx : eqb k x = false).
      { rewrite eqb_sym in Hk. rewrite (eqb_compat _ _ x Hk). exact Hx. }
      rewrite Hkx. reflexivity.
Qed.

Lemma tally_fold k l s :
  tally eqb k (fold_left (fun acc x => bump eqb x acc) l s)
  = (occurrences eqb k l + tally eqb k s)%nat.
Proof.
  revert s. induction l as [|x l IH]; intros s; simpl; [reflexivity|].
  rewrite IH, tally_bump. unfold occurrences, hit. simpl.
  destruct (eqb k x); simpl; lia.
Qed.

Lemma tally_value_counts k l :
  tally eqb k (value_counts eqb l) = occurrences eqb k l.
Proof.
  unfold value_counts. rewrite tally_fold. unfold tally. simpl. lia.
Qed.

(** Reading the tally at the labels gives, label by label, the number of
    occurrences of that label. *)
Lemma reindex_value_counts labels l :
  map snd (reindex eqb labels 0 (value_counts eqb l))
  = map (fun k => occurrences eqb k l) labels.
Proof.
  unfold reindex. rewrite map_map. apply map_ext. intros k. simpl.
  rewrite <- tally_value_counts. unfold tally.
  destruct (lookup eqb k (value_counts eqb l)); reflexivity.
Qed.

Lemma reindex_labels labels fill s :
  map fst (reindex eqb labels fill s) = labels.
Proof.
  unfold reindex. rewrite map_map. simpl. apply map_id.
Qed.

Lemma hits_distinct labels x :
  distinct eqb labels = true ->
  list_sum (map (fun k => hit eqb k x) labels)
  = if labelled eqb labels x then 1%nat else 0%nat.
Proof.
  unfold labelled, hit. induction labels as [|k r IH]; simpl; [reflexivity|].
  intros H. apply andb_prop in H. destruct H as [Hk Hr].
  rewrite (IH Hr). destruct (eqb k x) eqn:Hx; simpl; [|reflexivity].
  destruct (existsb (fun k0 => eqb k0 x) r) eqn:He; [|reflexivity].
  exfalso. apply existsb_exists in He. destruct He as [k' [Hin Hk']].
  apply negb_true_iff in Hk.
  assert (existsb (eqb k) r = true); [|congruence].
  apply existsb_exists. exists k'. split; [exact Hin|].
  rewrite (eqb_compat _ _ k' Hx), eqb_sym. exact Hk'.
Qed.

(** The counts read at pairwise distinct labels add up to the number of
    entries that carry one of the labels. *)
Lemma sum_occurrences labels l :
  distinct eqb labels = true ->
  list_sum (map (fun k => occurrences eqb k l) labels)
  = List.length (filter (labelled eqb labels) l).
Proof.
  intros Hd. induction l as [|x l IH].
  - clear Hd. induction labels as [|k r IHr]; simpl; [reflexivity|exact IHr].
  - transitivity
      (list_sum (map (fun k => hit eqb k x) labels)
       + list_sum (map (fun k => occurrences eqb k l) labels))%nat.
    + clear. induction labels as [|k r IHr]; simpl; [reflexivity|].
      rewrite IHr. unfold occurrences, hit. simpl.
      destruct (eqb k x); simpl; lia.
    + rewrite hits_distinct, IH by exact Hd. simpl.
      destruct (labelled eqb labels x); reflexivity.
Qed.

Lemma sum_reindex_value_counts labels l :
  distinct eqb labels = true ->
  list_sum (map snd (reindex eqb labels 0 (value_counts eqb l)))
  = List.length (filter (labelled eqb labels) l).
Proof.
  intros Hd. rewrite reindex_value_counts. apply sum_occurrences, Hd.
Qed.

End ValueCountsFacts.

Lemma Zeqb_compat (a b c : Z) : Z.eqb a b = true -> Z.eqb a c = Z.eqb b c.
Proof. intros H. apply Z.eqb_eq in H. subst. reflexivity. Qed.

Lemma cell_eqb_sym (a b : cell) : Charts.cell_eqb a b = Charts.cell_eqb b a.
Proof.
  destruct a as [x|], b as [y|]; simpl; try reflexivity.
  destruct (Qeq_bool x y) eqn:H1, (Qeq_bool y x) eqn:H2; try reflexivity.
  - apply Qeq_bool_iff in H1. apply Qeq_bool_neq in H2.
    exfalso. apply H2. symmetry. exact H1.
  - apply Qeq_bool_iff in H2. apply Qeq_bool_neq in H1.
    exfalso. apply H1. symmetry. exact H2.
Qed.

Lemma cell_eqb_compat (a b c : cell) :
  Charts.cell_eqb a b = true -> Charts.cell_eqb a c = Charts.cell_eqb b c.
Proof.
  destruct a as [x|], b as [y|], c as [z|]; simpl; try congruence.
  intros H. apply Qeq_bool_iff in H.
  destruct (Qeq_bool x z) eqn:H1, (Qeq_bool y z) eqn:H2; try reflexivity.
  - apply Qeq_bool_iff in H1. apply Qeq_bool_neq in H2.
    exfalso. apply H2. rewrite <- H. exact H1.
  - apply Qeq_bool_iff in H2. apply Qeq_bool_neq in H1.
    exfalso. apply H1. rewrite H. exact H2.
Qed.

(** ** Stacking row by row against pooling column by column *)

Section ListFacts.

Context {A B : Type}.

Lemma flat_map_nil (l : list A) : flat_map (fun _ => @nil B) l = [].
Proof. induction l; simpl; auto. Qed.

Lemma flat_map_of_map {C : Type} (f : B -> list C) (g : A -> B) (l : list A) :
  flat_map f (map g l) = flat_map (fun x => f (g x)) l.
Proof. induction l as [|x l IH]; simpl; [reflexivity|]. now rewrite IH. Qed.

Lemma flat_map_split_perm (f g : A -> list B) (l : list A) :
  Permutation (flat_map (fun i => f i ++ g i) l)
              (flat_map f l ++ flat_map g l).
Proof.
  induction l as [|x l IH]; simpl; [constructor|].
  rewrite <- !app_assoc. apply Permutation_app_head.
  rewrite IH. rewrite !app_assoc. apply Permutation_app_tail.
  apply Permutation_app_comm.
Qed.

Lemma flat_map_pointwise_perm (f g : A -> list B) (l : list A) :
  (forall x, Permutation (f x) (g x)) ->
  Permutation (flat_map f l) (flat_map g l).
Proof.
  intros H. induction l as [|x l IH]; simpl; [constructor|].
  apply Permutation_app; auto.
Qed.

Lemma filter_perm (p : A -> bool) (l l' : list A) :
  Permutation l l' -> Permutation (filter p l) (filter p l').
Proof.
  induction 1 as [|x l l' _ IH|x y l|l l' l'' _ IH1 _ IH2]; simpl.
  - constructor.
  - destruct (p x); [constructor|]; exact IH.
  - destruct (p x), (p y); try reflexivity. constructor.
  - etransitivity; eauto.
Qed.

Lemma map_nth_seq_from (d : A) (pre l : list A) :
  map (fun i => nth i (pre ++ l) d) (seq (List.length pre) (List.length l)) = l.
Proof.
  revert pre. induction l as [|x l IH]; intros pre; simpl; [reflexivity|].
  f_equal.
  - rewrite app_nth2, Nat.sub_diag by lia. reflexivity.
  - specialize (IH (pre ++ [x])). rewrite <- app_assoc in IH. simpl in IH.
    rewrite length_app in IH. simpl in IH.
    rewrite Nat.add_1_r in IH. exact IH.
Qed.

Lemma map_nth_seq (d : A) (l : list A) :
  map (fun i => nth i l d) (seq 0 (List.length l)) = l.
Proof. exact (map_nth_seq_from d [] l). Qed.

End ListFacts.

Section Pooling.
Import Aggregator.

Lemma dropna_cons (c : cell) (r : list cell) :
  dropna (c :: r) = olist c ++ dropna r.
Proof. reflexivity. Qed.

Lemma rows_pooled (n : nat) (t : Table) :
  Forall (fun c => List.length (snd c) = n) t ->
  Permutation (flat_map (fun i => dropna (row t i)) (seq 0 n)) (pooled t).
Proof.
  induction 1 as [|c cs Hc _ IH]; simpl.
  - rewrite flat_map_nil. constructor.
  - unfold row. simpl.
    etransitivity.
    { apply (flat_map_split_perm
               (fun i => olist (nth i (snd c) None))
               (fun i => dropna (row cs i))). }
    apply Permutation_app; [|exact IH].
    rewrite <- (flat_map_of_map olist (fun i => nth i (snd c) None)).
    rewrite <- Hc, map_nth_seq. reflexivity.
Qed.

(** On a rectangular table the stacked series holds exactly the pooled
    non-missing values. *)
Lemma stacked_pooled (t : Table) :
  rectangular t -> Permutation (stacked t) (pooled t).
Proof.
  intros H. destruct t as [|c cs]; [constructor|].
  unfold stacked. apply rows_pooled. exact H.
Qed.

Lemma length_dropna (col : list cell) :
  List.length (dropna col) = count_notna col.
Proof.
  unfold count_notna. induction col as [|[q|] r IH]; simpl; auto.
Qed.

Lemma length_pooled (t : Table) : List.length (pooled t) = pooled_notna t.
Proof.
  unfold pooled, pooled_notna. rewrite length_flat_map.
  f_equal. apply map_ext. intros c. apply length_dropna.
Qed.

Lemma length_stacked (t : Table) :
  rectangular t -> List.length (stacked t) = pooled_notna t.
Proof.
  intros H. rewrite (Permutation_length (stacked_pooled t H)).
  apply length_pooled.
Qed.

End Pooling.

(** ** Histograms *)

Section Histograms.
Import Aggregator Charts.

Lemma chart_counts_sum (col : list cell) :
  list_sum (map snd (chart_counts col))
  = List.length (filter exact_score col).
Proof.
  unfold chart_counts, exact_score.
  apply sum_reindex_value_counts;
    [exact cell_eqb_sym | exact cell_eqb_compat | reflexivity].
Qed.

Lemma length_filter_map {A B : Type} (p : B -> bool) (f : A -> B) (l : list A) :
  List.length (filter p (map f l))
  = List.length (filter (fun x => p (f x)) l).
Proof.
  induction l as [|x l IH]; simpl; [reflexivity|].
  destruct (p (f x)); simpl; congruence.
Qed.

Lemma total_answers_stacked (t : Table) :
  total_answers t = List.length (filter rounds_to_score (stacked t)).
Proof.
  unfold total_answers, dist_counts, rounds_to_score.
  rewrite sum_reindex_value_counts;
    [apply length_filter_map | exact Z.eqb_sym | exact Zeqb_compat
    | reflexivity].
Qed.

(** The pooled histogram counts the non-missing cells whose rounded value
    is a score. *)
Lemma total_answers_pooled (t : Table) :
  rectangular t ->
  total_answers t = List.length (filter rounds_to_score (pooled t)).
Proof.
  intros H. rewrite total_answers_stacked.
  apply Permutation_length, filter_perm, stacked_pooled, H.
Qed.

Lemma filter_all {A : Type} (p : A -> bool) (l : list A) :
  forallb p l = true -> filter p l = l.
Proof.
  induction l as [|x l IH]; simpl; [reflexivity|].
  intros H. apply andb_prop in H. destruct H as [Hx Hl].
  rewrite Hx, IH by exact Hl. reflexivity.
Qed.

Lemma all_missing_rows (t : Table) (l : list nat) :
  (forall c, In c t -> forall x, In x (snd c) -> x = None) ->
  flat_map (fun i => dropna (row t i)) l = [].
Proof.
  intros Hall. induction l as [|i l IH]; simpl; [reflexivity|].
  rewrite IH, app_nil_r. unfold row. clear IH.
  induction t as [|c cs IH]; simpl; [reflexivity|].
  rewrite IH by (intros c0 H0; apply Hall; right; exact H0).
  rewrite app_nil_r.
  match goal with |- olist ?x = [] => assert (Hx : x = None) end.
  { destruct (nth_in_or_default i (snd c) None) as [Hin|E]; [|exact E].
    exact (Hall c (or_introl eq_refl) _ Hin). }
  rewrite Hx. reflexivity.
Qed.

Lemma count_notna_zero (col : list cell) :
  count_notna col = 0%nat -> forall x, In x col -> x = None.
Proof.
  unfold count_notna. induction col as [|[q|] l IH]; simpl; intros H x Hx;
    try discriminate; try contradiction.
  destruct Hx as [<-|Hx]; auto.
Qed.

Lemma no_answers_stacked (t : Table) : pooled_notna t = 0%nat -> stacked t = [].
Proof.
  intros H.
  assert (Hall : forall c, In c t -> forall x, In x (snd c) -> x = None).
  { revert H. unfold pooled_notna. induction t as [|c cs IH]; simpl.
    - intros _ c [].
    - intros H c' [<-|Hin].
      + apply count_notna_zero. lia.
      + apply IH; [lia|exact Hin]. }
  destruct t as [|c cs]; [reflexivity|]. unfold stacked.
  apply all_missing_rows, Hall.
Qed.

Lemma percent_finite (t : Table) : Forall (fun p => p <> None) (percent t).
Proof.
  unfold percent. destruct (total_answers t) as [|n];
    apply Forall_forall; intros p Hp; apply in_map_iff in Hp;
    destruct Hp as [sc [<- _]]; simpl; discriminate.
Qed.

End Histograms.

(** ** Score colour *)

Section ScoreColor.
Import Config Helpers.

(** C5.  [score_color] gives the "good" colour from 4.0 upwards, the
    "neutral" colour from 3.0 up to but excluding 4.0, the "attention"
    colour below 3.0, and the "neutral" colour for a missing score. *)
Theorem score_color_thresholds (score : cell) :
  (score = None -> score_color score = NEUTRAL) /\
  (forall s, score = Some s -> 4 <= s -> score_color score = GOOD) /\
  (forall s, score = Some s -> 3 <= s -> s < 4 ->
             score_color score = NEUTRAL) /\
  (forall s, score = Some s -> s < 3 -> score_color score = BAD).
Proof.
  split; [|split; [|split]].
  - intros ->. reflexivity.
  - intros s -> H. simpl. apply Qle_bool_iff in H. rewrite H. reflexivity.
  - intros s -> H3 H4. simpl.
    destruct (Qle_bool 4 s) eqn:E4.
    + apply Qle_bool_iff in E4. exfalso. exact (Qlt_not_le _ _ H4 E4).
    + apply Qle_bool_iff in H3. rewrite H3. reflexivity.
  - intros s -> H. simpl.
    destruct (Qle_bool 4 s) eqn:E4.
    + apply Qle_bool_iff in E4. exfalso.
      apply (Qlt_not_le _ _ H). apply Qle_trans with (y := 4); [|exact E4].
      discriminate.
    + destruct (Qle_bool 3 s) eqn:E3; [|reflexivity].
      apply Qle_bool_iff in E3. exfalso. exact (Qlt_not_le _ _ H E3).
Qed.

Lemma score_color_thresholds_witness :
  score_color None = NEUTRAL /\
  score_color (Some 4) = GOOD /\
  score_color (Some 3) = NEUTRAL /\
  score_color (Some (299 # 100)) = BAD.
Proof.
  split; [|split; [|split]].
  - apply (proj1 (score_color_thresholds None)). reflexivity.
  - apply (proj1 (proj2 (score_color_thresholds (Some 4))) 4);
      [reflexivity | discriminate].
  - apply (proj1 (proj2 (proj2 (score_color_thresholds (Some 3)))) 3);
      [reflexivity | discriminate | reflexivity].
  - apply (proj2 (proj2 (proj2
             (score_color_thresholds (Some (299 # 100))))) (299 # 100));
      reflexivity.
Defined.

End ScoreColor.

(** ** Claims on the histograms *)

Section HistogramClaims.
Import Aggregator Charts.

(** C1, as stated, fails: a column holding 4 and 7 has two non-missing
    values, but its bar chart counts only the 4. *)
Lemma dist_chart_out_of_range :
  list_sum (bar_y (dist_chart (fun _ _ => [])
                     ("Q1"%string, [Some 4; Some 7])))
  <> count_notna [Some 4; Some 7].
Proof. vm_compute. discriminate. Qed.

(** C1 (amended).  For a question column whose non-missing values are all
    exactly one of the scores 1..5, the bar chart has the five buckets
    1..5 and its counts sum to the number of non-missing values of the
    column. *)
Theorem dist_chart_counts_sum
  (wrap : string -> nat -> list string) (c : string * list cell) :
  forallb (fun x => isna x || exact_score x) (snd c) = true ->
  bar_x (dist_chart wrap c) = map label_of score_labels /\
  list_sum (bar_y (dist_chart wrap c)) = count_notna (snd c).
Proof.
  intros H. split.
  - reflexivity.
  - change (list_sum (map snd (chart_counts (snd c))) = count_notna (snd c)).
    rewrite chart_counts_sum.
    unfold count_notna. f_equal. apply filter_ext_in. intros x Hx.
    rewrite forallb_forall in H. specialize (H x Hx).
    destruct x as [q|]; [exact H | reflexivity].
Qed.

Lemma dist_chart_counts_sum_witness :
  let c := ("Q1"%string, [Some 4; None; Some 5; Some 4]) in
  bar_x (dist_chart (fun _ _ => []) c) = map label_of score_labels /\
  list_sum (bar_y (dist_chart (fun _ _ => []) c)) = 3%nat.
Proof.
  exact (dist_chart_counts_sum (fun _ _ => [])
           ("Q1"%string, [Some 4; None; Some 5; Some 4]) eq_refl).
Defined.

(** C2, as stated, fails: the value 7 is a non-missing answer, but no
    bucket of the pooled histogram counts it. *)
Lemma dist_counts_out_of_range :
  list_sum (map snd (dist_counts [("Q1"%string, [Some 4; Some 7])]))
  <> pooled_notna [("Q1"%string, [Some 4; Some 7])].
Proof. vm_compute. discriminate. Qed.

(** C2 (amended).  For a rectangular table whose non-missing values all
    round to one of the scores 1..5, the pooled histogram has the five
    buckets 1..5 and its counts sum to the number of non-missing values
    of all question columns together. *)
Theorem dist_counts_sum (t : Table) :
  rectangular t ->
  forallb rounds_to_score (pooled t) = true ->
  map fst (dist_counts t) = score_labels /\
  list_sum (map snd (dist_counts t)) = pooled_notna t.
Proof.
  intros Hr Hall. split.
  - apply reindex_labels.
  - change (total_answers t = pooled_notna t).
    rewrite (total_answers_pooled t Hr), (filter_all _ _ Hall).
    apply length_pooled.
Qed.

Lemma dist_counts_sum_witness :
  map fst (dist_counts sample_table) = score_labels /\
  list_sum (map snd (dist_counts sample_table)) = 4%nat.
Proof.
  apply (dist_counts_sum sample_table).
  - repeat constructor.
  - reflexivity.
Defined.

(** C3, as stated, fails: with the answers 4 and 7 the pooled non-missing
    count is 2, but the value shown is 1/5, not 2/5. *)
Lemma total_answers_kpi_out_of_range :
  ~ Report.total_answers_value
      (Report.kpis [("Q1"%string, [Some 4; Some 7])])
    == inject_Z (Z.of_nat (pooled_notna [("Q1"%string, [Some 4; Some 7])]))
       / 5.
Proof. vm_compute. discriminate. Qed.

(** C3 (amended).  The "Total answers" value is the sum of the pooled
    histogram's bucket counts divided by 5; on a rectangular table that sum
    is the number of non-missing answers whose rounded score is one of
    1..5. *)
Theorem total_answers_kpi_value (t : Table) :
  rectangular t ->
  Report.total_answers_value (Report.kpis t)
  == inject_Z (Z.of_nat (list_sum (map snd (dist_counts t)))) / 5
  /\ list_sum (map snd (dist_counts t))
     = List.length (filter rounds_to_score (pooled t)).
Proof.
  intros Hr. split.
  - reflexivity.
  - exact (total_answers_pooled t Hr).
Qed.

Lemma total_answers_kpi_value_witness :
  Report.total_answers_value (Report.kpis sample_table)
  == inject_Z (Z.of_nat (list_sum (map snd (dist_counts sample_table)))) / 5
  /\ list_sum (map snd (dist_counts sample_table))
     = List.length (filter rounds_to_score (pooled sample_table)).
Proof.
  apply (total_answers_kpi_value sample_table). repeat constructor.
Defined.

(** C9.  The percentages are finite numbers for every table.  When no
    question cell holds a value, the overall mean is NaN without any
    division, the total is zero, each of the five percentages is 0 and the
    pie chart is the single "No data" slice. *)
Theorem no_answers_report (t : Table) :
  pooled_notna t = 0%nat ->
  Forall (fun p => p <> None) (percent t) /\
  overall_mean t = None /\
  total_answers t = 0%nat /\
  percent t = [Some 0; Some 0; Some 0; Some 0; Some 0] /\
  pie_chart t = no_data_pie /\
  pie_names (pie_chart t) = ["No data"%string].
Proof.
  intros H. pose proof (no_answers_stacked t H) as Hs.
  assert (Ht : total_answers t = 0%nat).
  { rewrite total_answers_stacked, Hs. reflexivity. }
  split; [apply percent_finite|].
  split; [unfold overall_mean; rewrite Hs; reflexivity|].
  split; [exact Ht|].
  split; [|unfold pie_chart; rewrite Ht; split; reflexivity].
  unfold percent. rewrite Ht. reflexivity.
Qed.

Lemma no_answers_report_witness :
  let t := [("Q1"%string, [None; None]); ("Q2"%string, [None; None])] in
  Forall (fun p => p <> None) (percent t) /\
  overall_mean t = None /\
  total_answers t = 0%nat /\
  percent t = [Some 0; Some 0; Some 0; Some 0; Some 0] /\
  pie_chart t = no_data_pie /\
  pie_names (pie_chart t) = ["No data"%string].
Proof.
  exact (no_answers_report
           [("Q1"%string, [None; None]); ("Q2"%string, [None; None])]
           eq_refl).
Defined.

End HistogramClaims.

(** ** Overall mean *)

Section OverallMean.
Import Aggregator.











(** The instance at hand: swapping the two columns, or reversing the three
    rows, leaves the mean 29/8. *)
Example overall_mean_sample :
  is_mean (overall_mean sample_table) (29 # 8)
  /\ is_mean (overall_mean (rev sample_table)) (29 # 8)
  /\ is_mean (overall_mean (reorder_rows [2; 1; 0]%nat sample_table)) (29 # 8).
Proof. vm_compute. repeat split. Qed.

End OverallMean.

(** ** Sorting *)

Section SortFacts.

Context {A : Type} (key : A -> Q).

Lemma Qle_bool_false (x y : Q) : Qle_bool x y = false -> y < x.
Proof.
  intros H. apply Qnot_le_lt. intros Hle.
  apply Qle_bool_iff in Hle. congruence.
Qed.

Lemma insert_perm (x : A) (l : list A) : Permutation (x :: l) (insert key x l).
Proof.
  induction l as [|y r IH]; simpl; [reflexivity|].
  destruct (Qle_bool (key x) (key y)); [reflexivity|].
  rewrite perm_swap. apply perm_skip, IH.
Qed.

Lemma argsort_perm (l : list A) : Permutation l (argsort key l).
Proof.
  induction l as [|x r IH]; simpl; [constructor|].
  rewrite <- insert_perm. apply perm_skip, IH.
Qed.









End SortFacts.

(** ** Best and worst question *)

Section BestWorst.
Import Aggregator.











End BestWorst.

Section BestWorstClaims.
Import Aggregator.







(** A question column without any value has no mean; it is sorted last and
    reported as the worst question. *)
Example worst_q_all_missing :
  let t := [("Q1"%string, [None; None]); ("Q2"%string, [Some 3; Some 2])] in
  best_q t = "Q2"%string /\ worst_q t = "Q1"%string /\ worst_mean t = None.
Proof. vm_compute. repeat split. Qed.



(** The example of the specification: Q1 all 1, Q2 all 5. *)
Example best_worst_two_questions :
  best_q two_questions = "Q2"%string
  /\ is_mean (best_mean two_questions) 5
  /\ worst_q two_questions = "Q1"%string
  /\ is_mean (worst_mean two_questions) 1.
Proof. vm_compute. repeat split. Qed.

End BestWorstClaims.

(** ** Strings *)

Section StringFacts.
Import PyStr.

Lemma append_assoc (a b c : string) : (a +++ b) +++ c = a +++ b +++ c.
Proof. induction a as [|x a IH]; simpl; [reflexivity|]. now rewrite IH. Qed.

Lemma append_nil_r (a : string) : a +++ EmptyString = a.
Proof. induction a as [|x a IH]; simpl; [reflexivity|]. now rewrite IH. Qed.




Lemma lstrip_all_space (s : string) :
  all_space s = true -> lstrip s = EmptyString.
Proof.
  induction s as [|c s IH]; simpl; [reflexivity|].
  destruct (is_space c); simpl; [exact IH|discriminate].
Qed.

Lemma lstrip_head (s : string) :
  match lstrip s with
  | EmptyString => all_space s = true
  | String c _ => is_space c = false /\ all_space s = false
  end.
Proof.
  induction s as [|c s IH]; simpl; [reflexivity|].
  destruct (is_space c) eqn:E; simpl.
  - destruct (lstrip s); [exact IH|]. tauto.
  - rewrite E. auto.
Qed.

Lemma rstrip_head (c : ascii) (s : string) :
  is_space c = false -> rstrip (String c s) <> EmptyString.
Proof.
  intros H. simpl. destruct (rstrip s); [rewrite H|]; discriminate.
Qed.

(** A string trims to nothing exactly when it is blank. *)
Lemma strip_empty (s : string) :
  is_empty (strip s) = all_space s.
Proof.
  unfold strip. pose proof (lstrip_head s) as H.
  destruct (lstrip s) as [|c r] eqn:E.
  - rewrite H. reflexivity.
  - destruct H as [Hc Hs]. rewrite Hs.
    pose proof (rstrip_head c r Hc) as Hr.
    destruct (rstrip (String c r)); [congruence|reflexivity].
Qed.

Lemma join_in (sep x : string) (l : list string) :
  In x l -> exists a b, join sep l = a +++ x +++ b.
Proof.
  induction l as [|y l IH]; [intros []|].
  intros [->|Hin].
  - destruct l as [|z l].
    + exists EmptyString, EmptyString. simpl. now rewrite append_nil_r.
    + exists EmptyString, (sep +++ join sep (z :: l)). reflexivity.
  - destruct (IH Hin) as [a [b Hab]].
    destruct l as [|z l]; [destruct Hin|].
    exists (y +++ sep +++ a), b.
    change (join sep (y :: z :: l)) with (y +++ sep +++ join sep (z :: l)).
    rewrite Hab, !append_assoc. reflexivity.
Qed.

End StringFacts.

(** ** Column roles *)

Section ColumnRoles.

Variable parse_float : string -> option Q.
Variable to_datetime : raw -> raw.







End ColumnRoles.


(** The roles found in the sample frame. *)
Example sample_frame_roles :
  option_map (fun L => (l_timestamp_col L, l_comment_col L, l_questions L))
             (load (fun _ => None) (fun r => r) sample_frame)
  = Some ("TimeStamp (UTC)"%string, Some "Any Comments?"%string,
          [("When"%string, [None; None]);
           ("Q1"%string, [Some 4; None]);
           ("Optional remarks"%string, [None; None])]).
Proof. reflexivity. Qed.

(** ** Comments *)

Section CommentClaims.

Variable float_str : Q -> string.
Variable parse_float : string -> option Q.
Variable to_datetime : raw -> raw.

Lemma filter_map_swap {X Y : Type} (p : Y -> bool) (f : X -> Y) (l : list X) :
  filter p (map f l) = map f (filter (fun x => p (f x)) l).
Proof.
  induction l as [|x l IH]; simpl; [reflexivity|].
  destruct (p (f x)); simpl; congruence.
Qed.

(** Trimming first and dropping the empty strings, as the script does, is
    dropping the blank entries and trimming the rest. *)
Lemma comments_displayed (col : list raw) :
  comments float_str col = displayed float_str col.
Proof.
  unfold comments, displayed, entries.
  rewrite <- (map_map (astype_str float_str) PyStr.strip).
  rewrite filter_map_swap. f_equal. apply filter_ext. intros s.
  rewrite strip_empty. reflexivity.
Qed.


Lemma comment_name_not_empty (name : string) :
  is_comment_name name = true -> PyStr.is_empty name = false.
Proof. destruct name; [discriminate|reflexivity]. Qed.

(** After loading, the comment cells are there exactly when a comment
    column was found, and the section is decided by the comments alone. *)
Lemma comments_html_loaded (df : DataFrame) (L : Loaded) :
  load parse_float to_datetime df = Some L ->
  comments_html float_str L
  = match shown float_str L with
    | [] => EmptyString
    | cs => comments_section cs
    end.
Proof.
  unfold load. destruct (timestamp_col df) as [ts|]; [|discriminate].
  intros [= <-]. unfold comments_html, shown. simpl.
  unfold comment_col. destruct (find is_comment_name (columns df)) as [name|] eqn:F;
    simpl; [|reflexivity].
  apply find_some in F. destruct F as [_ F].
  rewrite (comment_name_not_empty name F), comments_displayed. reflexivity.
Qed.


(** C10.  Every displayed comment, which is the trimmed text of a
    non-missing cell of the comment column, occurs in the comments section
    exactly as it is, between the opening tag with its quotation mark and
    the closing quotation mark with its tag. *)
Theorem comments_verbatim (df : DataFrame) (L : Loaded) (c : string) :
  load parse_float to_datetime df = Some L ->
  In c (shown float_str L) ->
  (exists col r, l_comment_cells L = Some col /\ In r col /\
                 c = PyStr.strip (astype_str float_str r)) /\
  exists a b,
    comments_html float_str L
    = a +++ "<div class='comment'>“" +++ c +++ "”</div>" +++ b.
Proof.
  intros H Hc. split.
  - unfold shown in Hc. destruct (l_comment_cells L) as [col|]; [|destruct Hc].
    unfold displayed, entries in Hc. apply in_map_iff in Hc.
    destruct Hc as [s [<- Hs]]. apply filter_In in Hs. destruct Hs as [Hs _].
    apply in_map_iff in Hs. destruct Hs as [r [<- Hr]].
    apply filter_In in Hr. destruct Hr as [Hr _].
    exists col, r. auto.
  - rewrite (comments_html_loaded df L H).
    destruct (shown float_str L) as [|c0 cs] eqn:E; [destruct Hc|].
    unfold comments_section, items.
    destruct (join_in PyStr.nl (comment_item c) (map comment_item (c0 :: cs)))
      as [a [b Hab]]; [apply in_map, Hc|].
    rewrite Hab.
    exists (section_head (List.length (c0 :: cs)) +++ a), (b +++ section_tail).
    unfold comment_item. rewrite !append_assoc. reflexivity.
Qed.

End CommentClaims.


Lemma comments_verbatim_witness :
  (exists col r, l_comment_cells sample_loaded = Some col /\ In r col /\
     "fine <b>so far</b>"%string
     = PyStr.strip (astype_str (fun _ => EmptyString) r)) /\
  exists a b,
    comments_html (fun _ => EmptyString) sample_loaded
    = a +++ "<div class='comment'>“" +++ "fine <b>so far</b>" +++ "”</div>"
      +++ b.
Proof.
  apply (comments_verbatim (fun _ => EmptyString) (fun _ => None) (fun r => r)
           sample_frame sample_loaded "fine <b>so far</b>").
  - reflexivity.
  - left. reflexivity.
Defined.

(** A frame whose comment column is blank throughout has no section. *)
Example comments_absent :
  option_map (comments_html (fun _ => EmptyString))
    (load (fun _ => None) (fun r => r)
       [("Timestamp"%string, [RStr "a"; RStr "b"]);
        ("Comment"%string, [RStr "   "; RNaN])])
  = Some EmptyString.
Proof. reflexivity. Qed.

(** ** Status colours: further properties *)

Section ScoreColorOrder.
Import Config Helpers.

Lemma score_color_cases (score : cell) :
  score_color score = GOOD \/ score_color score = NEUTRAL
  \/ score_color score = BAD.
Proof.
  destruct score as [s|]; simpl; [|auto].
  destruct (Qle_bool 4 s); [auto|]. destruct (Qle_bool 3 s); auto.
Qed.

Lemma grade_score_color (s : Q) :
  grade (score_color (Some s))
  = if Qle_bool 4 s then 2%nat else if Qle_bool 3 s then 1%nat else 0%nat.
Proof.
  simpl. destruct (Qle_bool 4 s); [reflexivity|].
  destruct (Qle_bool 3 s); reflexivity.
Qed.

Lemma score_color_Qeq (a b : Q) :
  a == b -> score_color (Some a) = score_color (Some b).
Proof.
  intros H. simpl.
  assert (E4 : Qle_bool 4 a = Qle_bool 4 b).
  { destruct (Qle_bool 4 a) eqn:A, (Qle_bool 4 b) eqn:B; try reflexivity.
    - apply Qle_bool_iff in A. rewrite H in A. apply Qle_bool_iff in A.
      congruence.
    - apply Qle_bool_iff in B. rewrite <- H in B. apply Qle_bool_iff in B.
      congruence. }
  assert (E3 : Qle_bool 3 a = Qle_bool 3 b).
  { destruct (Qle_bool 3 a) eqn:A, (Qle_bool 3 b) eqn:B; try reflexivity.
    - apply Qle_bool_iff in A. rewrite H in A. apply Qle_bool_iff in A.
      congruence.
    - apply Qle_bool_iff in B. rewrite <- H in B. apply Qle_bool_iff in B.
      congruence. }
  rewrite E4, E3. reflexivity.
Qed.

Lemma thresholds_monotone (a b : Q) :
  a <= b ->
  ((if Qle_bool 4 a then 2 else if Qle_bool 3 a then 1 else 0)
   <= (if Qle_bool 4 b then 2 else if Qle_bool 3 b then 1 else 0))%nat.
Proof.
  intros H. destruct (Qle_bool 4 a) eqn:A4.
  - apply Qle_bool_iff in A4.
    assert (B4 : Qle_bool 4 b = true)
      by (apply Qle_bool_iff; eapply Qle_trans; eauto).
    rewrite B4. lia.
  - destruct (Qle_bool 3 a) eqn:A3.
    + apply Qle_bool_iff in A3.
      assert (B3 : Qle_bool 3 b = true)
        by (apply Qle_bool_iff; eapply Qle_trans; eauto).
      destruct (Qle_bool 4 b); [lia|]. rewrite B3. lia.
    + lia.
Qed.

(** X1.  A higher score never gets a worse colour, and a score gets the colour
    of its value, however the fraction is written. *)
Theorem score_color_monotone (a b : Q) :
  a <= b ->
  (grade (score_color (Some a)) <= grade (score_color (Some b)))%nat
  /\ (b <= a -> score_color (Some a) = score_color (Some b)).
Proof.
  intros H. split.
  - rewrite !grade_score_color. apply thresholds_monotone, H.
  - intros H'. apply score_color_Qeq. apply Qle_antisym; assumption.
Qed.

Lemma score_color_monotone_witness :
  (grade (score_color (Some (5 # 2))) <= grade (score_color (Some (7 # 2))))%nat
  /\ (7 # 2 <= 5 # 2 -> score_color (Some (5 # 2)) = score_color (Some (7 # 2))).
Proof. apply score_color_monotone. discriminate. Defined.

End ScoreColorOrder.

(** ** Rounding *)

Section Rounding.
Import Aggregator.

Lemma floor_bounds (q : Q) :
  inject_Z (Qfloor q) <= q /\ q < inject_Z (Qfloor q) + 1.
Proof.
  split; [apply Qfloor_le|].
  pose proof (Qlt_floor q) as H. rewrite inject_Z_plus in H. exact H.
Qed.

(** The three ways [round_half_even] can go. *)
Lemma round_half_even_cases (q : Q) :
  let f := Qfloor q in
  (q - inject_Z f < 1 # 2 /\ round_half_even q = f) \/
  (1 # 2 < q - inject_Z f /\ round_half_even q = (f + 1)%Z) \/
  (q - inject_Z f == 1 # 2 /\ Z.even f = true /\ round_half_even q = f) \/
  (q - inject_Z f == 1 # 2 /\ Z.even f = false
   /\ round_half_even q = (f + 1)%Z).
Proof.
  intros f. unfold round_half_even. fold f.
  destruct (Qcompare (q - inject_Z f) (1 # 2)) eqn:E.
  - apply Qeq_alt in E. destruct (Z.even f) eqn:P.
    + right. right. left. repeat split; assumption.
    + right. right. right. repeat split; assumption.
  - apply Qlt_alt in E. left. split; [exact E|reflexivity].
  - apply Qgt_alt in E. right. left. split; [exact E|reflexivity].
Qed.

(** Rounding moves a value by at most one half. *)
Lemma round_half_even_error (q : Q) :
  inject_Z (round_half_even q) - (1 # 2) <= q
  /\ q <= inject_Z (round_half_even q) + (1 # 2).
Proof.
  destruct (floor_bounds q) as [Hlo Hhi].
  destruct (round_half_even_cases q) as [[H ->]|[[H ->]|[[H [_ ->]]|[H [_ ->]]]]];
    rewrite ?inject_Z_plus; change (inject_Z 1) with 1;
    set (F := inject_Z (Qfloor q)) in *; split; lra.
Qed.

(** An integer is its own rounding. *)
Lemma round_half_even_integer (z : Z) : round_half_even (inject_Z z) = z.
Proof.
  destruct (round_half_even_cases (inject_Z z)) as [[H E]|[[H E]|[[H _]|[H _]]]];
    rewrite Qfloor_Z in *; try exact E; lra.
Qed.

Lemma round_half_even_Qeq (q : Q) (z : Z) :
  q == inject_Z z -> round_half_even q = z.
Proof.
  intros H. unfold round_half_even.
  assert (F : Qfloor q = z) by (rewrite H; apply Qfloor_Z).
  rewrite F.
  assert (E : Qcompare (q - inject_Z z) (1 # 2) = Lt).
  { assert (L : q - inject_Z z < 1 # 2)
      by (set (y := inject_Z z) in *; lra).
    exact (proj1 (Qlt_alt _ _) L). }
  rewrite E. reflexivity.
Qed.

Lemma labelled_scores (z : Z) :
  labelled Z.eqb score_labels z = true <-> (1 <= z <= 5)%Z.
Proof.
  unfold labelled, score_labels. rewrite existsb_exists. split.
  - intros [k [Hk E]]. apply Z.eqb_eq in E. subst k. simpl in Hk. lia.
  - intros H. exists z. split; [simpl; lia|apply Z.eqb_refl].
Qed.

Lemma even_bound (f : Z) : Z.even f = true -> (f <= 5)%Z -> (f <= 4)%Z.
Proof.
  intros E H. apply Z.even_spec in E. destruct E as [k ->]. lia.
Qed.

Lemma odd_bound (f : Z) : Z.even f = false -> (0 <= f)%Z -> (1 <= f)%Z.
Proof.
  intros E H. destruct (Z.eq_dec f 0) as [->|N]; [discriminate|lia].
Qed.

Lemma Zlt_of_Q (x y : Z) : inject_Z x < inject_Z y -> (x < y)%Z.
Proof. rewrite <- Zlt_Qlt. auto. Qed.

Lemma Q_of_Zle (x y : Z) : (x <= y)%Z -> inject_Z x <= inject_Z y.
Proof. rewrite <- Zle_Qle. auto. Qed.

(** A value goes into one of the buckets 1..5 exactly when it lies strictly
    between 0.5 and 5.5: the two ends round to the even numbers 0 and 6. *)
(** Integer constants as rationals, the floor as an atom. *)
Ltac qnum :=
  change (inject_Z (-1)) with (-1 # 1) in *;
  change (inject_Z 0) with 0 in *;
  change (inject_Z 1) with 1 in *;
  change (inject_Z 4) with 4 in *;
  change (inject_Z 5) with 5 in *;
  change (inject_Z 6) with 6 in *;
  repeat match goal with
         | |- context [inject_Z ?z] =>
             let F := fresh "F" in set (F := inject_Z z) in *
         | H : context [inject_Z ?z] |- _ =>
             let F := fresh "F" in set (F := inject_Z z) in *
         end.

Lemma rounds_to_score_range (q : Q) :
  rounds_to_score q = true <-> (1 # 2) < q /\ q < (11 # 2).
Proof.
  unfold rounds_to_score. rewrite labelled_scores.
  destruct (floor_bounds q) as [Hlo Hhi].
  set (f := Qfloor q) in *.
  destruct (round_half_even_cases q) as [[H E]|[[H E]|[[H [P E]]|[H [P E]]]]];
    fold f in H, E; rewrite E; split.
  - intros [H1 H5]. apply Q_of_Zle in H1, H5. qnum. split; lra.
  - intros [H1 H5].
    assert (0 < f)%Z by (apply Zlt_of_Q; qnum; lra).
    assert (f < 6)%Z by (apply Zlt_of_Q; qnum; lra). lia.
  - intros [H1 H5].
    assert (G1 : (0 <= f)%Z) by lia. assert (G5 : (f <= 4)%Z) by lia.
    apply Q_of_Zle in G1, G5. qnum. split; lra.
  - intros [H1 H5].
    assert (-1 < f)%Z by (apply Zlt_of_Q; qnum; lra).
    assert (f < 5)%Z by (apply Zlt_of_Q; qnum; lra). lia.
  - intros [H1 H5]. pose proof (even_bound f P H5) as H4.
    apply Q_of_Zle in H1, H4. qnum. split; lra.
  - intros [H1 H5].
    assert (0 < f)%Z by (apply Zlt_of_Q; qnum; lra).
    assert (f < 5)%Z by (apply Zlt_of_Q; qnum; lra). lia.
  - intros [H1 H5].
    assert (G0 : (0 <= f)%Z) by lia. pose proof (odd_bound f P G0) as G1.
    assert (G5 : (f <= 4)%Z) by lia.
    apply Q_of_Zle in G1, G5. qnum. split; lra.
  - intros [H1 H5].
    assert (0 < f)%Z by (apply Zlt_of_Q; qnum; lra).
    assert (f < 5)%Z by (apply Zlt_of_Q; qnum; lra). lia.
Qed.

End Rounding.

(** ** Buckets one by one *)

Section Buckets.
Import Aggregator Charts.

Lemma reindex_occurrences {K : Type} (eqb : K -> K -> bool)
      (labels : list K) (l : list K) :
  (forall a b, eqb a b = eqb b a) ->
  (forall a b c, eqb a b = true -> eqb a c = eqb b c) ->
  reindex eqb labels 0 (value_counts eqb l)
  = map (fun k => (k, occurrences eqb k l)) labels.
Proof.
  intros Hs Hc. unfold reindex. apply map_ext. intros k. f_equal.
  rewrite <- (tally_value_counts eqb Hs Hc). unfold tally.
  destruct (lookup eqb k (value_counts eqb l)); reflexivity.
Qed.

Lemma count_if_perm {A : Type} (p : A -> bool) (l l' : list A) :
  Permutation l l' -> count_if p l = count_if p l'.
Proof. intros H. apply Permutation_length, filter_perm, H. Qed.

Lemma count_if_ext {A : Type} (p p' : A -> bool) (l : list A) :
  (forall x, In x l -> p x = p' x) -> count_if p l = count_if p' l.
Proof. intros H. unfold count_if. f_equal. apply filter_ext_in, H. Qed.

Lemma count_if_le {A : Type} (p p' : A -> bool) (l : list A) :
  (forall x, p x = true -> p' x = true) ->
  (count_if p l <= count_if p' l)%nat.
Proof.
  intros H. unfold count_if. induction l as [|x l IH]; simpl; [lia|].
  destruct (p x) eqn:E.
  - rewrite (H x E). simpl. lia.
  - destruct (p' x); simpl; lia.
Qed.

Lemma count_if_flat_map {A B : Type} (p : B -> bool) (f : A -> list B)
      (l : list A) :
  count_if p (flat_map f l) = list_sum (map (fun x => count_if p (f x)) l).
Proof.
  unfold count_if. induction l as [|x l IH]; simpl; [reflexivity|].
  rewrite filter_app, length_app, IH. reflexivity.
Qed.

Lemma dist_counts_by_bucket (t : Table) :
  rectangular t ->
  dist_counts t
  = map (fun b => (b, count_if (fun q => Z.eqb (round_half_even q) b)
                               (pooled t)))
        score_labels.
Proof.
  intros Hr. unfold dist_counts.
  rewrite (reindex_occurrences Z.eqb _ _ Z.eqb_sym Zeqb_compat).
  apply map_ext. intros b. f_equal. unfold occurrences.
  rewrite length_filter_map.
  rewrite <- (count_if_perm _ _ _ (stacked_pooled t Hr)).
  apply count_if_ext. intros q _. apply Z.eqb_sym.
Qed.

(** X2.  The pooled histogram has one entry for each score 1..5 and no other, and
    the entry of a score is the number of non-missing answers that round to
    it. *)
Theorem dist_counts_buckets (t : Table) (b : Z) (n : nat) :
  rectangular t ->
  In (b, n) (dist_counts t) <->
  (1 <= b <= 5)%Z
  /\ n = count_if (fun q => Z.eqb (round_half_even q) b) (pooled t).
Proof.
  intros Hr. rewrite (dist_counts_by_bucket t Hr), in_map_iff. split.
  - intros [b' [[= <- <-] Hb]]. split; [|reflexivity].
    unfold score_labels in Hb. simpl in Hb. lia.
  - intros [Hb ->]. exists b. split; [reflexivity|].
    unfold score_labels. simpl. lia.
Qed.

Lemma dist_counts_buckets_witness :
  In (4%Z, 2%nat) (dist_counts sample_table) <->
  (1 <= 4 <= 5)%Z
  /\ 2%nat = count_if (fun q => Z.eqb (round_half_even q) 4)
                      (pooled sample_table).
Proof. apply dist_counts_buckets. repeat constructor. Defined.

Lemma holds_label (z : Z) (c : cell) : cell_eqb (label_of z) c = holds z c.
Proof.
  destruct c as [q|]; simpl; [|reflexivity].
  destruct (Qeq_bool (inject_Z z) q) eqn:A, (Qeq_bool q (inject_Z z)) eqn:B;
    try reflexivity.
  - apply Qeq_bool_iff in A. apply Qeq_bool_neq in B. exfalso. apply B.
    symmetry. exact A.
  - apply Qeq_bool_iff in B. apply Qeq_bool_neq in A. exfalso. apply A.
    symmetry. exact B.
Qed.

Lemma chart_counts_by_bucket (col : list cell) :
  map snd (chart_counts col)
  = map (fun z => count_if (holds z) col) score_labels.
Proof.
  unfold chart_counts.
  rewrite (reindex_occurrences cell_eqb _ _ cell_eqb_sym cell_eqb_compat).
  rewrite !map_map. apply map_ext. intros z. simpl.
  apply count_if_ext. intros x _. apply holds_label.
Qed.

(** X3.  A question's chart has the five bars 1..5, each bar holds the number of
    cells of the column that are exactly its score (nothing is rounded), and
    the bar labels repeat the bar heights. *)
Theorem dist_chart_buckets
  (wrap : string -> nat -> list string) (c : string * list cell) :
  bar_x (dist_chart wrap c) = map label_of score_labels /\
  bar_y (dist_chart wrap c)
  = map (fun z => count_if (holds z) (snd c)) score_labels /\
  bar_text (dist_chart wrap c) = bar_y (dist_chart wrap c).
Proof.
  split; [reflexivity|]. split; [|reflexivity].
  exact (chart_counts_by_bucket (snd c)).
Qed.

Lemma exact_score_notna (x : cell) : exact_score x = true -> notna x = true.
Proof. destruct x; [reflexivity|discriminate]. Qed.

(** X4.  No histogram counts more than the answers there are. *)
Theorem histograms_bounded
  (wrap : string -> nat -> list string) (t : Table) :
  rectangular t ->
  (total_answers t <= pooled_notna t)%nat /\
  forall c, In c t ->
    (list_sum (bar_y (dist_chart wrap c)) <= count_notna (snd c))%nat
    /\ (count_notna (snd c) <= nrows t)%nat.
Proof.
  intros Hr. split.
  - rewrite (total_answers_pooled t Hr), <- length_pooled.
    unfold count_if. apply filter_length_le.
  - intros c Hc. split.
    + change (list_sum (map snd (chart_counts (snd c)))
              <= count_notna (snd c))%nat.
      rewrite chart_counts_sum. apply (count_if_le exact_score notna).
      exact exact_score_notna.
    + unfold rectangular in Hr. rewrite Forall_forall in Hr.
      rewrite <- (Hr c Hc). apply filter_length_le.
Qed.

Lemma histograms_bounded_witness :
  (total_answers sample_table <= pooled_notna sample_table)%nat /\
  forall c, In c sample_table ->
    (list_sum (bar_y (dist_chart (fun _ _ => []) c)) <= count_notna (snd c))%nat
    /\ (count_notna (snd c) <= nrows sample_table)%nat.
Proof. apply histograms_bounded. repeat constructor. Defined.

End Buckets.

(** ** Pooled histogram against the per-question charts *)

Section PooledAgainstCharts.
Import Aggregator Charts.

Lemma integral_floor (q : Q) :
  Qeq_bool q (inject_Z (Qfloor q)) = true -> q == inject_Z (Qfloor q).
Proof. apply Qeq_bool_iff. Qed.

Lemma holds_round (z : Z) (q : Q) :
  integral (Some q) = true ->
  Z.eqb (round_half_even q) z = holds z (Some q).
Proof.
  simpl. intros H. apply integral_floor in H.
  rewrite (round_half_even_Qeq q _ H).
  destruct (Z.eqb (Qfloor q) z) eqn:E.
  - apply Z.eqb_eq in E. symmetry. apply Qeq_bool_iff. rewrite <- E. exact H.
  - symmetry. destruct (Qeq_bool q (inject_Z z)) eqn:B; [|reflexivity].
    apply Qeq_bool_iff in B. apply Z.eqb_neq in E. exfalso. apply E.
    rewrite B. apply Qfloor_Z.
Qed.

Lemma count_round_column (z : Z) (col : list cell) :
  forallb integral col = true ->
  count_if (fun q => Z.eqb (round_half_even q) z) (dropna col)
  = count_if (holds z) col.
Proof.
  unfold count_if. induction col as [|[q|] col IH]; [reflexivity| |].
  - intros H. apply andb_prop in H. destruct H as [Hq Hc].
    specialize (IH Hc). cbn [dropna flat_map olist app filter].
    fold (dropna col). rewrite (holds_round z q Hq).
    destruct (holds z (Some q)); simpl; rewrite IH; reflexivity.
  - intros H. apply andb_prop in H. destruct H as [_ Hc].
    exact (IH Hc).
Qed.

Lemma list_sum_zeros {A : Type} (l : list A) :
  list_sum (map (fun _ => 0%nat) l) = 0%nat.
Proof. induction l; simpl; auto. Qed.

(** X5.  On a table of whole numbers the pooled histogram is, bucket by bucket,
    the sum of the per-question charts. *)
Theorem pooled_is_sum_of_charts
  (wrap : string -> nat -> list string) (t : Table) (i : nat) :
  rectangular t ->
  forallb (fun c => forallb integral (snd c)) t = true ->
  nth i (map snd (dist_counts t)) 0%nat
  = list_sum (map (fun c => nth i (bar_y (dist_chart wrap c)) 0%nat) t).
Proof.
  intros Hr Hi. rewrite (dist_counts_by_bucket t Hr), map_map. cbn [snd].
  rewrite forallb_forall in Hi.
  assert (Hb : forall z,
             count_if (fun q => Z.eqb (round_half_even q) z) (pooled t)
             = list_sum (map (fun c => count_if (holds z) (snd c)) t)).
  { intros z. unfold pooled. rewrite count_if_flat_map. f_equal.
    apply map_ext_in. intros c Hc. apply count_round_column, Hi, Hc. }
  transitivity
    (list_sum
       (map (fun c => nth i (map (fun z => count_if (holds z) (snd c))
                                 score_labels) 0%nat) t)).
  - unfold score_labels.
    destruct i as [|[|[|[|[|i]]]]]; cbn [map nth]; rewrite ?Hb;
      try reflexivity.
    destruct i; rewrite list_sum_zeros; reflexivity.
  - f_equal. apply map_ext. intros c.
    change (bar_y (dist_chart wrap c)) with (map snd (chart_counts (snd c))).
    rewrite chart_counts_by_bucket. reflexivity.
Qed.

Lemma pooled_is_sum_of_charts_witness :
  nth 0 (map snd (dist_counts two_questions)) 0%nat
  = list_sum (map (fun c => nth 0 (bar_y (dist_chart (fun _ _ => []) c)) 0%nat)
                  two_questions).
Proof.
  apply pooled_is_sum_of_charts; [repeat constructor|reflexivity].
Defined.

(** A value with a fraction breaks the agreement: 4.4 is in the pooled
    bucket 4 but in no bar of its question. *)
Example pooled_not_sum_of_charts :
  nth 3 (map snd (dist_counts [("Q1"%string, [Some (44 # 10)])])) 0%nat = 1%nat
  /\ nth 3 (bar_y (dist_chart (fun _ _ => [])
                     ("Q1"%string, [Some (44 # 10)]))) 0%nat = 0%nat.
Proof. vm_compute. split; reflexivity. Qed.

End PooledAgainstCharts.

(** ** Percentages, the "Total answers" value and the pie chart *)

Section Percentages.
Import Aggregator Charts.












End Percentages.

Section CompleteTables.
Import Aggregator Charts Config Helpers.

Lemma list_sum_const {A : Type} (n : nat) (l : list A) :
  list_sum (map (fun _ => n) l) = (List.length l * n)%nat.
Proof. induction l as [|a l IH]; simpl; [reflexivity|]. rewrite IH. lia. Qed.

Lemma answered_notna (col : list cell) :
  forallb answered col = true -> count_notna col = List.length col.
Proof.
  unfold count_notna. induction col as [|[q|] col IH]; simpl;
    [reflexivity| |discriminate].
  intros H. apply andb_prop in H. destruct H as [_ H]. now rewrite IH.
Qed.

Lemma answered_pooled (t : Table) :
  forallb (fun c => forallb answered (snd c)) t = true ->
  forallb rounds_to_score (pooled t) = true.
Proof.
  intros H. apply forallb_forall. intros q Hq.
  unfold pooled in Hq. apply in_flat_map in Hq. destruct Hq as [c [Hc Hq]].
  rewrite forallb_forall in H. specialize (H c Hc).
  rewrite forallb_forall in H. apply (H (Some q)).
  unfold dropna in Hq. apply in_flat_map in Hq.
  destruct Hq as [[x|] [Hx Hq]]; simpl in Hq; [|destruct Hq].
  destruct Hq as [->|[]]. exact Hx.
Qed.

(** X7.  When every cell of every question holds an answer in range, the total
    is questions times respondents; with five questions the "Total answers"
    value is the number of respondents. *)
Theorem total_answers_complete (t : Table) :
  rectangular t ->
  forallb (fun c => forallb answered (snd c)) t = true ->
  total_answers t = (List.length t * nrows t)%nat /\
  (List.length t = 5%nat -> total_answers_kpi t == nQ (nrows t)).
Proof.
  intros Hr Ha.
  assert (Ht : total_answers t = (List.length t * nrows t)%nat).
  { rewrite (total_answers_pooled t Hr).
    rewrite (filter_all _ _ (answered_pooled t Ha)), length_pooled.
    unfold pooled_notna. rewrite <- list_sum_const. f_equal.
    apply map_ext_in. intros c Hc.
    rewrite forallb_forall in Ha. rewrite (answered_notna _ (Ha c Hc)).
    unfold rectangular in Hr. rewrite Forall_forall in Hr. exact (Hr c Hc). }
  split; [exact Ht|]. intros H5. unfold total_answers_kpi.
  rewrite Ht, H5. unfold nQ. rewrite Nat2Z.inj_mul, inject_Z_mult.
  change (inject_Z (Z.of_nat 5)) with 5. field.
Qed.

Lemma total_answers_complete_witness :
  total_answers five_questions
  = (List.length five_questions * nrows five_questions)%nat /\
  (List.length five_questions = 5%nat ->
   total_answers_kpi five_questions == nQ (nrows five_questions)).
Proof.
  apply total_answers_complete; [repeat constructor|reflexivity].
Defined.

Lemma length_dist_counts (t : Table) : List.length (dist_counts t) = 5%nat.
Proof. unfold dist_counts, reindex. rewrite length_map. reflexivity. Qed.

Lemma dist_counts_labels (t : Table) : map fst (dist_counts t) = score_labels.
Proof. apply reindex_labels. Qed.

(** X8.  The pie chart always has one name and one colour per slice.  With
    answers to show, its slices are named 1 to 5 in that order, their
    values are the pooled bucket counts and add up to the total. *)
Theorem pie_chart_shape (t : Table) :
  List.length (pie_names (pie_chart t)) = List.length (pie_values (pie_chart t))
  /\ List.length (pie_colors (pie_chart t))
     = List.length (pie_values (pie_chart t))
  /\ (total_answers t <> 0%nat ->
      pie_names (pie_chart t) = ["1"; "2"; "3"; "4"; "5"]%string
      /\ pie_values (pie_chart t) = map snd (dist_counts t)
      /\ list_sum (pie_values (pie_chart t)) = total_answers t).
Proof.
  unfold pie_chart. destruct (total_answers t) as [|n] eqn:E;
    cbn [pie_names pie_values pie_colors].
  - split; [reflexivity|]. split; [reflexivity|]. congruence.
  - rewrite !length_map, length_dist_counts.
    split; [reflexivity|]. split; [reflexivity|]. intros _.
    split; [|split; [reflexivity|exact E]].
    rewrite <- (map_map fst (fun z => PyStr.str_of_nat (Z.to_nat z))).
    rewrite dist_counts_labels. reflexivity.
Qed.

Lemma pie_chart_shape_witness :
  total_answers sample_table <> 0%nat /\
  pie_names (pie_chart sample_table) = ["1"; "2"; "3"; "4"; "5"]%string.
Proof.
  split; [discriminate|].
  apply (proj2 (proj2 (pie_chart_shape sample_table))). discriminate.
Defined.

End CompleteTables.

(** ** The summary table *)

Section SummaryOrder.
Import Aggregator.

Lemma insert_sorted {A : Type} (key : A -> Q) (x : A) (l : list A) :
  StronglySorted (fun a b => key a <= key b) l ->
  StronglySorted (fun a b => key a <= key b) (insert key x l).
Proof.
  induction 1 as [|y r Hr IH Hy]; simpl.
  - constructor; constructor.
  - destruct (Qle_bool (key x) (key y)) eqn:E.
    + apply Qle_bool_iff in E. constructor.
      * constructor; assumption.
      * constructor; [exact E|].
        eapply Forall_impl; [|exact Hy]. intros z Hz. simpl in Hz.
        eapply Qle_trans; eauto.
    + apply Qle_bool_false in E. constructor; [exact IH|].
      apply (Permutation_Forall (insert_perm key x r)).
      constructor; [apply Qlt_le_weak, E|exact Hy].
Qed.

Lemma argsort_sorted {A : Type} (key : A -> Q) (l : list A) :
  StronglySorted (fun a b => key a <= key b) (argsort key l).
Proof.
  induction l as [|x r IH]; simpl; [constructor|].
  apply insert_sorted, IH.
Qed.

Lemma sorted_snoc {A : Type} (R : A -> A -> Prop) (l : list A) (x : A) :
  StronglySorted R l -> Forall (fun a => R a x) l ->
  StronglySorted R (l ++ [x]).
Proof.
  induction 1 as [|y r Hr IH Hy]; simpl; intros Hx.
  - constructor; constructor.
  - inversion Hx as [|? ? Hyx Hrx]; subst. constructor; [apply IH, Hrx|].
    apply Forall_app. split; [exact Hy|]. constructor; [exact Hyx|constructor].
Qed.

Lemma sorted_rev {A : Type} (R : A -> A -> Prop) (l : list A) :
  StronglySorted R l -> StronglySorted (fun a b => R b a) (rev l).
Proof.
  induction 1 as [|y r Hr IH Hy]; simpl; [constructor|].
  apply sorted_snoc; [exact IH|]. apply Forall_rev. exact Hy.
Qed.

Lemma filter_partition {A : Type} (p : A -> bool) (l : list A) :
  Permutation l (filter p l ++ filter (fun x => negb (p x)) l).
Proof.
  induction l as [|x l IH]; simpl; [constructor|].
  destruct (p x); simpl.
  - apply perm_skip, IH.
  - apply Permutation_cons_app, IH.
Qed.

Lemma sort_values_perm (rows : list SummaryRow) :
  Permutation (sort_values_mean_desc rows) rows.
Proof.
  unfold sort_values_mean_desc.
  rewrite (filter_partition (fun r => notna (Mean r)) rows) at 3.
  apply Permutation_app.
  - rewrite <- Permutation_rev, <- argsort_perm, <- Permutation_rev.
    reflexivity.
  - erewrite filter_ext; [reflexivity|]. intros r. unfold notna.
    rewrite negb_involutive. reflexivity.
Qed.

(** X9.  The summary table lists every question exactly once; the rows with a
    mean come first, from the highest mean down, and the rows whose mean is
    NaN follow in column order. *)
Theorem summary_sorted (t : Table) :
  Permutation (summary t) (map summary_row t) /\
  List.length (summary t) = List.length t /\
  exists with_mean without,
    summary t = with_mean ++ without /\
    Forall (fun r => Mean r <> None) with_mean /\
    StronglySorted (fun a b => mean_key b <= mean_key a) with_mean /\
    without = filter (fun r => isna (Mean r)) (map summary_row t).
Proof.
  split; [apply sort_values_perm|]. split.
  - unfold summary.
    rewrite (Permutation_length (sort_values_perm (map summary_row t))).
    apply length_map.
  - unfold summary, sort_values_mean_desc.
    eexists. eexists. split; [reflexivity|]. split; [|split; [|reflexivity]].
    + apply Forall_rev.
      apply (Permutation_Forall (argsort_perm mean_key _)).
      apply Forall_rev. apply Forall_forall. intros r Hr.
      apply filter_In in Hr. destruct Hr as [_ Hr].
      destruct (Mean r); [discriminate|discriminate].
    + apply (sorted_rev (fun a b => mean_key a <= mean_key b)).
      apply argsort_sorted.
Qed.

End SummaryOrder.

(** ** Mean, median, minimum and maximum of a column *)

Section ColumnStats.
Import Aggregator.
















End ColumnStats.

(** ** Worst, overall and best *)

Section MeansOrdered.
Import Aggregator Helpers.












End MeansOrdered.

(** ** A table without any value *)

Section NoValues.
Import Aggregator Helpers Config.

Lemma no_values_columns (t : Table) :
  pooled_notna t = 0%nat -> forall c, In c t -> dropna (snd c) = [].
Proof.
  unfold pooled_notna. induction t as [|c cs IH]; simpl; [intros _ c []|].
  intros H c' [<-|Hc'].
  - assert (Hc : count_notna (snd c) = 0%nat) by lia.
    rewrite <- length_dropna in Hc. destruct (dropna (snd c)); [reflexivity|].
    discriminate.
  - apply IH; [lia|exact Hc'].
Qed.

Lemma filter_nothing {A : Type} (p : A -> bool) (l : list A) :
  (forall x, In x l -> p x = false) -> filter p l = [].
Proof.
  induction l as [|x l IH]; simpl; intros H; [reflexivity|].
  rewrite (H x (or_introl eq_refl)). apply IH. intros y Hy. apply H. auto.
Qed.

Lemma filter_everything {A : Type} (p : A -> bool) (l : list A) :
  (forall x, In x l -> p x = true) -> filter p l = l.
Proof.
  intros H. apply filter_all. apply forallb_forall. exact H.
Qed.

Lemma last_question (rows : list SummaryRow) (r : SummaryRow) :
  Question (last rows r) = last (map Question rows) (Question r).
Proof.
  revert r. induction rows as [|x rows IH]; intros r; [reflexivity|].
  destruct rows as [|y rows]; [reflexivity|].
  change (last (x :: y :: rows) r) with (last (y :: rows) r).
  change (last (map Question (x :: y :: rows)) (Question r))
    with (last (map Question (y :: rows)) (Question r)).
  apply IH.
Qed.

Lemma last_cons_default {A : Type} (a d : A) (l : list A) :
  last (a :: l) d = last l a.
Proof.
  revert a d. induction l as [|b l IH]; intros a d; [reflexivity|].
  change (last (a :: b :: l) d) with (last (b :: l) d).
  rewrite IH. symmetry. apply IH.
Qed.

Lemma iloc_last_in {A : Type} (l : list A) (x : A) :
  iloc_last l = Some x -> In x l.
Proof.
  destruct l as [|a l]; [discriminate|]. intros [= <-].
  destruct l as [|b l]; [left; reflexivity|].
  destruct (@exists_last _ (b :: l)) as [l' [z Ez]]; [discriminate|].
  rewrite Ez, last_last. right. apply in_or_app. right. left. reflexivity.
Qed.

(** X13.  When no question cell holds a value, the summary keeps the column
    order, the best question is the first column and the worst the last
    (or "-" without columns), both means are NaN, and the three KPI colours
    are the neutral one. *)
Theorem no_values_summary (t : Table) :
  pooled_notna t = 0%nat ->
  summary t = map summary_row t /\
  best_q t = hd "-"%string (map fst t) /\
  worst_q t = last (map fst t) "-"%string /\
  best_mean t = None /\ worst_mean t = None /\
  Report.overall_color (Report.kpis t) = NEUTRAL /\
  Report.best_color (Report.kpis t) = NEUTRAL /\
  Report.worst_color (Report.kpis t) = NEUTRAL.
Proof.
  intros H. pose proof (no_values_columns t H) as Hc.
  assert (Hrow : forall r, In r (map summary_row t) -> Mean r = None).
  { intros r Hr. apply in_map_iff in Hr. destruct Hr as [c [<- Hin]].
    simpl. rewrite (Hc c Hin). reflexivity. }
  assert (Hs : summary t = map summary_row t).
  { unfold summary, sort_values_mean_desc.
    rewrite (filter_nothing (fun r => notna (Mean r))).
    - simpl. apply filter_everything. intros r Hr.
      rewrite (Hrow r Hr). reflexivity.
    - intros r Hr. rewrite (Hrow r Hr). reflexivity. }
  assert (Hb : best_mean t = None).
  { unfold best_mean. rewrite Hs. destruct t as [|c cs]; [reflexivity|].
    simpl. rewrite (Hc c (or_introl eq_refl)). reflexivity. }
  assert (Hw : worst_mean t = None).
  { unfold worst_mean. rewrite Hs.
    destruct (iloc_last (map summary_row t)) as [r|] eqn:E; [|reflexivity].
    apply Hrow. exact (iloc_last_in _ _ E). }
  split; [exact Hs|]. split.
  { unfold best_q. rewrite Hs. destruct t; reflexivity. }
  split.
  { unfold worst_q. rewrite Hs. destruct t as [|c cs]; [reflexivity|].
    cbn [map iloc_last]. rewrite last_question, map_map.
    symmetry. apply last_cons_default. }
  split; [exact Hb|]. split; [exact Hw|].
  unfold Report.kpis. cbn [Report.overall_color Report.best_color
                            Report.worst_color].
  rewrite Hb, Hw. unfold overall_mean.
  rewrite (no_answers_stacked t H). repeat split.
Qed.

End NoValues.

Lemma no_values_summary_witness :
  let t := [("Q1"%string, [None; None]); ("Q2"%string, [None; None])] in
  Aggregator.summary t = map Aggregator.summary_row t /\
  Aggregator.best_q t = hd "-"%string (map fst t) /\
  Aggregator.worst_q t = last (map fst t) "-"%string /\
  Aggregator.best_mean t = None /\ Aggregator.worst_mean t = None /\
  Report.overall_color (Report.kpis t) = Config.NEUTRAL /\
  Report.best_color (Report.kpis t) = Config.NEUTRAL /\
  Report.worst_color (Report.kpis t) = Config.NEUTRAL.
Proof.
  exact (no_values_summary
           [("Q1"%string, [None; None]); ("Q2"%string, [None; None])] eq_refl).
Defined.

(** ** Trimmed comments *)

Section TrimmedComments.
Import PyStr.

Variable float_str : Q -> string.







End TrimmedComments.


(** ** The loaded table *)

Section LoadedTable.

Variable parse_float : string -> option Q.
Variable to_datetime : raw -> raw.

Lemma get_col_length (df : DataFrame) (c : string) (n : nat) :
  Forall (fun col => List.length (snd col) = n) df ->
  In c (columns df) -> List.length (get_col df c) = n.
Proof.
  intros Hall Hc. unfold get_col.
  destruct (find (fun p => String.eqb (fst p) c) df) as [p|] eqn:F.
  - apply find_some in F. destruct F as [Hp _].
    rewrite Forall_forall in Hall. exact (Hall p Hp).
  - exfalso. unfold columns in Hc. apply in_map_iff in Hc.
    destruct Hc as [p [<- Hp]].
    pose proof (find_none _ _ F p Hp) as Hn. simpl in Hn.
    rewrite String.eqb_refl in Hn. discriminate.
Qed.

Lemma filter_drops_one {A : Type} (p : A -> bool) (l : list A) (x : A) :
  In x l -> p x = false -> (List.length (filter p l) < List.length l)%nat.
Proof.
  induction l as [|y l IH]; simpl; [intros []|].
  intros [->|Hin] Hx.
  - rewrite Hx. pose proof (filter_length_le p l). lia.
  - specialize (IH Hin Hx). destruct (p y); simpl; lia.
Qed.

Lemma next_or_in {A : Type} (p : A -> bool) (l : list A) (d : A) :
  In d l -> In (next_or p l d) l.
Proof.
  intros Hd. unfold next_or. destruct (find p l) as [x|] eqn:F; [|exact Hd].
  apply find_some in F. tauto.
Qed.

(** X15.  Loading fails exactly on a frame without columns.  Otherwise the
    timestamp column is one of the columns and is never a question, so
    there are fewer questions than columns; and when the frame is
    rectangular so is the question table, with one row per row of the
    frame. *)
Theorem load_shape (df : DataFrame) :
  (load parse_float to_datetime df = None <-> columns df = []) /\
  forall L, load parse_float to_datetime df = Some L ->
    In (l_timestamp_col L) (columns df) /\
    ~ In (l_timestamp_col L) (l_question_cols L) /\
    (List.length (l_question_cols L) < List.length (columns df))%nat /\
    l_n L = len df /\
    (Forall (fun col => List.length (snd col) = len df) df ->
     Aggregator.rectangular (l_questions L) /\
     Forall (fun c => List.length (snd c) = l_n L) (l_questions L)).
Proof.
  unfold load, timestamp_col.
  destruct (columns df) as [|c0 cols] eqn:Ecols.
  - split; [tauto|]. intros L [=].
  - split; [split; [discriminate|discriminate]|].
    rewrite <- Ecols. intros L [= <-]. cbn [l_timestamp_col l_question_cols
                                             l_questions l_n].
    set (ts := next_or is_timestamp_name (columns df) c0).
    set (cm := comment_col df).
    assert (Hts : In ts (columns df)).
    { apply next_or_in. rewrite Ecols. left. reflexivity. }
    assert (Hroles : negb (in_roles ts cm ts) = false).
    { unfold in_roles. rewrite String.eqb_refl. reflexivity. }
    split; [exact Hts|]. split.
    { unfold question_cols. intros Hq. apply filter_In in Hq.
      destruct Hq as [_ Hq]. congruence. }
    split.
    { unfold question_cols. exact (filter_drops_one _ _ ts Hts Hroles). }
    split; [reflexivity|]. intros Hrect.
    assert (Hcols : Forall (fun c => List.length (snd c) = len df)
                      (map (fun c => (c, map (to_numeric parse_float)
                                                (get_col df c)))
                           (question_cols df ts cm))).
    { apply Forall_forall. intros c Hc. apply in_map_iff in Hc.
      destruct Hc as [n [<- Hn]]. cbn [snd]. rewrite length_map.
      apply (get_col_length df n (len df) Hrect).
      unfold question_cols in Hn. apply filter_In in Hn. tauto. }
    split; [|exact Hcols].
    unfold Aggregator.rectangular.
    destruct (map (fun c => (c, map (to_numeric parse_float) (get_col df c)))
                  (question_cols df ts cm)) as [|[n v] r] eqn:E;
      [constructor|].
    inversion Hcols as [|? ? Hv Hr]; subst. cbn [snd] in Hv.
    cbn [Aggregator.nrows]. rewrite Hv. exact Hcols.
Qed.

End LoadedTable.

Lemma load_shape_witness :
  exists L,
    load (fun _ => None) (fun r => r) sample_frame = Some L /\
    Aggregator.rectangular (l_questions L) /\
    Forall (fun c => List.length (snd c) = l_n L) (l_questions L).
Proof.
  exists sample_loaded. split; [reflexivity|].
  apply (proj2 (load_shape (fun _ => None) (fun r => r) sample_frame)
           sample_loaded eq_refl).
  repeat constructor.
Defined.

(** ** Date range *)

Section DateRangeFacts.

Variable to_datetime : raw -> raw.
Variable timestamp_value : raw -> option Z.
Variable strftime_ymd : Z -> string.

Lemma fold_Zmin_spec (r : list Z) (x : Z) :
  Forall (fun y => (fold_left Z.min r x <= y)%Z) (x :: r)
  /\ In (fold_left Z.min r x) (x :: r).
Proof.
  revert x. induction r as [|y r IH]; intros x; simpl.
  - split; [constructor; [lia|constructor]|auto].
  - destruct (IH (Z.min x y)) as [Hall Hin].
    inversion Hall as [|? ? Hm Hr]; subst. split.
    + constructor; [lia|]. constructor; [lia|exact Hr].
    + destruct Hin as [Hin|Hin]; [|auto].
      rewrite <- Hin. destruct (Z.min_spec x y) as [[_ ->]|[_ ->]]; auto.
Qed.

Lemma fold_Zmax_spec (r : list Z) (x : Z) :
  Forall (fun y => (y <= fold_left Z.max r x)%Z) (x :: r)
  /\ In (fold_left Z.max r x) (x :: r).
Proof.
  revert x. induction r as [|y r IH]; intros x; simpl.
  - split; [constructor; [lia|constructor]|auto].
  - destruct (IH (Z.max x y)) as [Hall Hin].
    inversion Hall as [|? ? Hm Hr]; subst. split.
    + constructor; [lia|]. constructor; [lia|exact Hr].
    + destruct Hin as [Hin|Hin]; [|auto].
      rewrite <- Hin. destruct (Z.max_spec x y) as [[_ ->]|[_ ->]]; auto.
Qed.

Lemma length_append (a b : string) :
  String.length (a +++ b) = (String.length a + String.length b)%nat.
Proof. induction a as [|c a IH]; simpl; [reflexivity|]. now rewrite IH. Qed.

Lemma range_text_long (a b : string) :
  (5 <= String.length (a +++ " → " +++ b))%nat.
Proof. rewrite !length_append. simpl. lia. Qed.

(** X16.  Without a valid timestamp both ends are NaT and the report shows "-";
    otherwise the two ends are timestamps of the column that bound every
    valid timestamp, and the report shows the two dates around an arrow.
    The report shows "-" only when no timestamp is valid. *)
Theorem date_range_edges (col : list raw) :
  let ts := timestamps to_datetime timestamp_value col in
  (ts = [] ->
   date_min to_datetime timestamp_value col = None /\
   date_max to_datetime timestamp_value col = None /\
   date_range_shown to_datetime timestamp_value strftime_ymd col = "-"%string)
  /\
  (ts <> [] ->
   exists a b,
     date_min to_datetime timestamp_value col = Some a /\
     date_max to_datetime timestamp_value col = Some b /\
     In a ts /\ In b ts /\
     Forall (fun z => (a <= z <= b)%Z) ts /\
     date_range_shown to_datetime timestamp_value strftime_ymd col
     = strftime_ymd a +++ " → " +++ strftime_ymd b)
  /\
  (date_range_shown to_datetime timestamp_value strftime_ymd col = "-"%string
   -> ts = []).
Proof.
  intros ts. unfold date_range_shown, date_range_str, date_min, date_max.
  fold ts. destruct ts as [|x r] eqn:E.
  - split; [intros _; repeat split|]. split; [congruence|reflexivity].
  - destruct (fold_Zmin_spec r x) as [Hmin Imin].
    destruct (fold_Zmax_spec r x) as [Hmax Imax].
    set (a := fold_left Z.min r x) in *. set (b := fold_left Z.max r x) in *.
    pose proof (range_text_long (strftime_ymd a) (strftime_ymd b)) as Hlen.
    assert (Hne : PyStr.is_empty (strftime_ymd a +++ " → " +++ strftime_ymd b)
                  = false).
    { destruct (strftime_ymd a +++ " → " +++ strftime_ymd b);
        [simpl in Hlen; lia|reflexivity]. }
    rewrite Hne. split; [discriminate|]. split.
    + intros _. exists a, b. repeat split; try assumption.
      rewrite Forall_forall in Hmin, Hmax. apply Forall_forall.
      intros z Hz. split; [apply Hmin, Hz|apply Hmax, Hz].
    + intros Hs. rewrite Hs in Hlen. simpl in Hlen. lia.
Qed.

End DateRangeFacts.

Lemma date_range_edges_witness :
  let value := fun r => match r with RNum q => Some (Qfloor q) | _ => None end in
  let col := [RNum 30; RStr "soon"; RNum 10; RNaN; RNum 20] in
  exists a b,
    date_min (fun r => r) value col = Some a /\
    date_max (fun r => r) value col = Some b /\
    In a (timestamps (fun r => r) value col) /\
    In b (timestamps (fun r => r) value col) /\
    Forall (fun z => (a <= z <= b)%Z) (timestamps (fun r => r) value col) /\
    date_range_shown (fun r => r) value (fun _ => "d"%string) col
    = ("d" +++ " → " +++ "d")%string.
Proof.
  intros value col.
  apply (proj1 (proj2 (date_range_edges (fun r => r) value
                         (fun _ => "d"%string) col))).
  discriminate.
Defined.

(** ** Summary table markup *)

Section SummaryTableFacts.
Import Aggregator.

Variable format_2f : Q -> string.

Lemma summary_row_in (t : Table) (c : string * list cell) :
  In c t -> In (summary_row c) (summary t).
Proof.
  intros H. apply (Permutation_in (l := map summary_row t)).
  - symmetry. apply sort_values_perm.
  - apply in_map, H.
Qed.

(** X17.  The table has one row per question, and every question name stands in
    its cell exactly as it is in the file, without any escaping. *)
Theorem summary_table_names (t : Table) :
  List.length (rows format_2f t) = List.length t /\
  forall c, In c t ->
    exists a b,
      summary_table_html format_2f t
      = a +++ "<td class=" +++ PyStr.dq +++ "q" +++ PyStr.dq +++ ">"
          +++ fst c +++ "</td>" +++ b.
Proof.
  split.
  - unfold rows. rewrite length_map. unfold summary.
    rewrite (Permutation_length (sort_values_perm (map summary_row t))).
    apply length_map.
  - intros c Hc. pose proof (summary_row_in t c Hc) as Hr.
    destruct (join_in EmptyString (row_html format_2f (summary_row c))
                (rows format_2f t)) as [a [b Hab]].
    { unfold rows. apply in_map, Hr. }
    unfold summary_table_html. rewrite Hab.
    exists (table_head +++ a +++ PyStr.nl +++ "      <tr>"
            +++ PyStr.nl +++ "        "),
      (td (fmt format_2f (Mean (summary_row c)))
       +++ td (fmt format_2f (Median (summary_row c)))
       +++ td (fmt format_2f (Min (summary_row c)))
       +++ td (fmt format_2f (Max (summary_row c)))
       +++ PyStr.nl +++ "      </tr>" +++ PyStr.nl +++ "    "
       +++ b +++ table_tail).
    unfold row_html. cbn [Question summary_row].
    rewrite !append_assoc. reflexivity.
Qed.

End SummaryTableFacts.

Lemma summary_table_names_witness :
  exists a b,
    summary_table_html (fun _ => "0.00"%string) two_questions
    = a +++ "<td class=" +++ PyStr.dq +++ "q" +++ PyStr.dq +++ ">"
        +++ "Q2" +++ "</td>" +++ b.
Proof.
  apply (proj2 (summary_table_names (fun _ => "0.00"%string) two_questions)
           ("Q2"%string, [Some 5; Some 5; Some 5])).
  right. left. reflexivity.
Defined.

(** ** What the total counts *)

Section TotalRange.
Import Aggregator.

Lemma in_score_range_spec (q : Q) :
  in_score_range q = true <-> (1 # 2) < q /\ q < (11 # 2).
Proof.
  unfold in_score_range. rewrite andb_true_iff, !negb_true_iff. split.
  - intros [H1 H2]. split; apply Qle_bool_false; assumption.
  - intros [H1 H2]. split.
    + destruct (Qle_bool q (1 # 2)) eqn:E; [|reflexivity].
      apply Qle_bool_iff in E. exfalso. exact (Qlt_not_le _ _ H1 E).
    + destruct (Qle_bool (11 # 2) q) eqn:E; [|reflexivity].
      apply Qle_bool_iff in E. exfalso. exact (Qlt_not_le _ _ H2 E).
Qed.

Lemma rounds_in_range (q : Q) : rounds_to_score q = in_score_range q.
Proof.
  destruct (rounds_to_score q) eqn:R, (in_score_range q) eqn:I;
    try reflexivity.
  - apply rounds_to_score_range, in_score_range_spec in R. congruence.
  - apply in_score_range_spec, rounds_to_score_range in I. congruence.
Qed.

(** X18.  The total behind "Total answers" is the number of non-missing answers
    strictly between 0.5 and 5.5: halves round to the even neighbour, so
    0.5 goes to 0 and 5.5 to 6, outside the buckets. *)
Theorem total_answers_range (t : Table) :
  rectangular t ->
  total_answers t = count_if in_score_range (pooled t).
Proof.
  intros Hr. rewrite (total_answers_pooled t Hr).
  apply count_if_ext. intros q _. apply rounds_in_range.
Qed.

Lemma total_answers_range_witness :
  total_answers [("Q1"%string, [Some (1 # 2); Some (11 # 2); Some (3 # 2);
                                Some (9 # 2); None])]
  = 2%nat.
Proof.
  apply (total_answers_range
           [("Q1"%string, [Some (1 # 2); Some (11 # 2); Some (3 # 2);
                           Some (9 # 2); None])]).
  repeat constructor.
Defined.

End TotalRange.
